(** * SignalGen: windowed indicators, candle-window planning, recommendation
      parsing and the historical-replay pipeline of [app.py].

    The development is a shallow embedding of [src/app.py].

    Modelling conventions.
    - Integers (timestamps, intervals, counts) are [Z]; Python's [//] is
      [Z.div] (floor division).
    - Python floats are modelled by [fv]: exact rationals extended with the
      IEEE-754 special values the code relies on (infinities and NaN).
      Rounding and signed zeros are not modelled.  NaN is the "undefined"
      sentinel of pandas.
    - Python strings are [string]; a character is a code point below 256.
    - Exceptions are an error monad ([result]); the two network collaborators
      and the date/integer parsers of the standard library are fields of a
      [Runtime] record.
    - Timestamps are taken within the range that pandas and [datetime] can
      represent, so that their conversion to dates cannot fail. *)

From Stdlib Require Import ZArith QArith Bool List Sorted Lia Lqa.
From Stdlib Require Import Strings.String Strings.Ascii.
Import ListNotations.

Set Implicit Arguments.
Set Warnings "-register-all".

(* ------------------------------------------------------------------ *)
(** ** Float values *)

Inductive fv : Type :=
| Fin (q : Q)
| PInf
| NInf
| NaN.

Definition Qis0 (q : Q) : bool := Qeq_bool q 0.
Definition Qpos (q : Q) : bool := negb (Qle_bool q 0).
Definition Qneg (q : Q) : bool := negb (Qle_bool 0 q).

Definition fneg (a : fv) : fv :=
  match a with
  | Fin x => Fin (- x)
  | PInf => NInf
  | NInf => PInf
  | NaN => NaN
  end.

Definition fadd (a b : fv) : fv :=
  match a, b with
  | NaN, _ | _, NaN => NaN
  | Fin x, Fin y => Fin (x + y)
  | PInf, NInf | NInf, PInf => NaN
  | PInf, _ | _, PInf => PInf
  | NInf, _ | _, NInf => NInf
  end.

Definition fsub (a b : fv) : fv := fadd a (fneg b).

Definition fmul (a b : fv) : fv :=
  match a, b with
  | NaN, _ | _, NaN => NaN
  | Fin x, Fin y => Fin (x * y)
  | Fin x, PInf | PInf, Fin x =>
      if Qis0 x then NaN else if Qpos x then PInf else NInf
  | Fin x, NInf | NInf, Fin x =>
      if Qis0 x then NaN else if Qpos x then NInf else PInf
  | PInf, PInf | NInf, NInf => PInf
  | PInf, NInf | NInf, PInf => NaN
  end.

(** Division as numpy performs it on float64: a zero divisor gives an
    infinity (or NaN for 0/0) instead of raising. *)
Definition fdiv (a b : fv) : fv :=
  match a, b with
  | NaN, _ | _, NaN => NaN
  | Fin x, Fin y =>
      if Qis0 y
      then (if Qis0 x then NaN else if Qpos x then PInf else NInf)
      else Fin (x / y)
  | Fin _, PInf | Fin _, NInf => Fin 0
  | PInf, Fin y => if Qneg y then NInf else PInf
  | NInf, Fin y => if Qneg y then PInf else NInf
  | PInf, PInf | PInf, NInf | NInf, PInf | NInf, NInf => NaN
  end.

(** [x > 0] and [x < 0] on floats: false on NaN. *)
Definition fgt0 (a : fv) : bool :=
  match a with
  | Fin x => Qpos x
  | PInf => true
  | _ => false
  end.

Definition flt0 (a : fv) : bool :=
  match a with
  | Fin x => Qneg x
  | NInf => true
  | _ => false
  end.

(** Equality of float values up to the representation of the rational. *)
Definition feq (a b : fv) : Prop :=
  match a, b with
  | Fin x, Fin y => x == y
  | PInf, PInf | NInf, NInf | NaN, NaN => True
  | _, _ => False
  end.

(* ------------------------------------------------------------------ *)
(** ** IndicatorEngine: [Series.rolling(window).mean()], [Series.diff()],
       [calculate_rsi] *)

Definition Qsum (xs : list Q) : Q := fold_right Qplus 0 xs.

(** The [w] samples ending at index [i] (for [w - 1 <= i]). *)
Definition window (w i : nat) (xs : list Q) : list Q :=
  firstn w (skipn (i + 1 - w) xs).

Definition window_mean (w i : nat) (xs : list Q) : Q :=
  Qsum (window w i xs) / inject_Z (Z.of_nat w).

(** [xs.rolling(window=w).mean()] on a series without missing values:
    NaN until [w] samples are available, then the mean of the trailing
    [w] samples. *)
Definition rolling_mean (w : nat) (xs : list Q) : list fv :=
  map (fun i => if (i + 1 <? w)%nat then NaN else Fin (window_mean w i xs))
      (seq 0 (List.length xs)).

Fixpoint diff_from (prev : Q) (xs : list Q) : list fv :=
  match xs with
  | [] => []
  | x :: t => Fin (x - prev) :: diff_from x t
  end.

(** [prices.diff()]: the first entry has no predecessor and is NaN. *)
Definition diff (xs : list Q) : list fv :=
  match xs with
  | [] => []
  | x :: t => NaN :: diff_from x t
  end.

(** [delta.where(cond, 0)] keeps the entries satisfying [cond] and puts 0
    elsewhere; the result has no NaN because [cond] is false on NaN. *)
Definition where_or_0 (cond : fv -> bool) (d : fv) : Q :=
  match d with
  | Fin x => if cond d then x else 0
  | _ => 0
  end.

Definition gains (prices : list Q) : list Q :=
  map (where_or_0 fgt0) (diff prices).

Definition losses (prices : list Q) : list Q :=
  map (fun d => - where_or_0 flt0 d) (diff prices).

Fixpoint zip_with {A B C} (f : A -> B -> C) (xs : list A) (ys : list B) : list C :=
  match xs, ys with
  | x :: xs', y :: ys' => f x y :: zip_with f xs' ys'
  | _, _ => []
  end.

Definition rsi_of_rs (rs : fv) : fv :=
  fsub (Fin 100) (fdiv (Fin 100) (fadd (Fin 1) rs)).

Definition calculate_rsi (prices : list Q) (period : nat) : list fv :=
  let gain := rolling_mean period (gains prices) in
  let loss := rolling_mean period (losses prices) in
  let rs := zip_with fdiv gain loss in
  map rsi_of_rs rs.

(* ------------------------------------------------------------------ *)
(** ** CandleWindowPlanner: the timestamp arithmetic of [get_signals] *)

Definition fifty_hours_ago (current_time : Z) : Z := (current_time - 50 * 3600)%Z.

Definition hours_remaining (current_time target_timestamp : Z) : Z :=
  ((target_timestamp - fifty_hours_ago current_time) / 3600)%Z.

Definition candles_to_fetch (current_time target_timestamp : Z) : Z :=
  if (target_timestamp >? fifty_hours_ago current_time)%Z
  then Z.min 50 (Z.max 1 (hours_remaining current_time target_timestamp))
  else 50%Z.

(** [since] when a date is given. *)
Definition since_for_date (current_time target_timestamp interval : Z) : Z :=
  (target_timestamp - candles_to_fetch current_time target_timestamp * interval * 60)%Z.

(** [since] when no date is given. *)
Definition since_now (current_time interval : Z) : Z :=
  (current_time - 50 * interval * 60)%Z.

(** [clamp x lo hi], as the specification words it. *)
Definition clamp (x lo hi : Z) : Z :=
  if (x <? lo)%Z then lo else if (hi <? x)%Z then hi else x.

(* ------------------------------------------------------------------ *)
(** ** Exceptions *)

(** The exceptions that travel through [app.py].  [Exception msg cause]
    stands for [Exception(f"{msg}{str(cause)}")] (or [Exception(msg)] when
    there is no cause). *)
Inductive exn : Type :=
| Exception (msg : string) (cause : option exn)
| JSONDecodeError
| IndexError
| KeyError
| ValueError
| RequestException.

Inductive result (A : Type) : Type :=
| Ok (a : A)
| Raise (e : exn).

Arguments Ok {A} a.
Arguments Raise {A} e.

Definition bind {A B} (r : result A) (k : A -> result B) : result B :=
  match r with
  | Ok a => k a
  | Raise e => Raise e
  end.

Notation "x <- r ;; k" := (bind r (fun x => k))
  (at level 61, r at next level, right associativity).

(** [try: r except Exception as e: raise h(e)]. *)
Definition reraise {A} (h : exn -> exn) (r : result A) : result A :=
  match r with
  | Ok a => Ok a
  | Raise e => Raise (h e)
  end.

(** [l[n]] on a Python list. *)
Definition item {A} (l : list A) (n : nat) : result A :=
  match nth_error l n with
  | Some a => Ok a
  | None => Raise IndexError
  end.

(* ------------------------------------------------------------------ *)
(** ** Python string operations used by the parser *)

Open Scope string_scope.

Fixpoint strip_prefix (p s : string) : option string :=
  match p with
  | EmptyString => Some s
  | String a p' =>
      match s with
      | String b s' => if Ascii.eqb a b then strip_prefix p' s' else None
      | EmptyString => None
      end
  end.

(** [s.partition(sep)] when [sep] occurs in [s]: the text before and after
    the leftmost occurrence. *)
Fixpoint partition (sep s : string) : option (string * string) :=
  match strip_prefix sep s with
  | Some rest => Some (EmptyString, rest)
  | None =>
      match s with
      | EmptyString => None
      | String c s' =>
          match partition sep s' with
          | Some (b, a) => Some (String c b, a)
          | None => None
          end
      end
  end.

(** [sep in s]. *)
Definition contains (sep s : string) : bool :=
  match partition sep s with Some _ => true | None => false end.

Fixpoint split_fuel (fuel : nat) (sep s : string) : list string :=
  match fuel with
  | O => [s]
  | S fuel' =>
      match partition sep s with
      | None => [s]
      | Some (b, a) => b :: split_fuel fuel' sep a
      end
  end.

(** [s.split(sep)] for a non-empty [sep]: every piece found consumes at
    least one character, so [length s + 1] rounds are enough. *)
Definition split (sep s : string) : list string :=
  split_fuel (S (String.length s)) sep s.

(** [str.isspace] on code points below 256. *)
Definition is_space (c : ascii) : bool :=
  let n := nat_of_ascii c in
  ((9 <=? n) && (n <=? 13) || (28 <=? n) && (n <=? 32)
   || (n =? 133) || (n =? 160))%nat.

Fixpoint lstrip (s : string) : string :=
  match s with
  | EmptyString => EmptyString
  | String c s' => if is_space c then lstrip s' else s
  end.

Fixpoint rstrip (s : string) : string :=
  match s with
  | EmptyString => EmptyString
  | String c s' =>
      match rstrip s' with
      | EmptyString => if is_space c then EmptyString else String c EmptyString
      | r => String c r
      end
  end.

(** [s.strip()]. *)
Definition strip (s : string) : string := rstrip (lstrip s).

(** The suffix of [s] that starts at the first occurrence of [c]. *)
Fixpoint from_first (c : ascii) (s : string) : option string :=
  match s with
  | EmptyString => None
  | String a s' => if Ascii.eqb a c then Some s else from_first c s'
  end.

(** The prefix of [s] that ends at the last occurrence of [c]. *)
Fixpoint upto_last (c : ascii) (s : string) : option string :=
  match s with
  | EmptyString => None
  | String a s' =>
      match upto_last c s' with
      | Some r => Some (String a r)
      | None => if Ascii.eqb a c then Some (String a EmptyString) else None
      end
  end.

(** [re.search(r'\{.*\}', s, re.DOTALL)]: with a greedy [.*] that also
    matches newlines, the match runs from the leftmost opening brace to the
    last closing brace after it; there is no match when no closing brace
    follows the first opening one. *)
Definition re_search_braces (s : string) : option string :=
  match from_first "{" s with
  | None => None
  | Some t => upto_last "}" t
  end.

(* ------------------------------------------------------------------ *)
(** ** JSON values *)

Inductive json : Type :=
| JNull
| JBool (b : bool)
| JNum (literal : string)
| JStr (s : string)
| JArr (items : list json)
| JObj (members : list (string * json)).

(** [d[k] = v] on a Python dict: a repeated key keeps its place and takes
    the later value. *)
Fixpoint dict_set (k : string) (v : json) (d : list (string * json))
  : list (string * json) :=
  match d with
  | [] => [(k, v)]
  | (k', v') :: d' =>
      if String.eqb k k' then (k, v) :: d' else (k', v') :: dict_set k v d'
  end.

(** [d.get(k)]. *)
Fixpoint dict_get (k : string) (d : list (string * json)) : option json :=
  match d with
  | [] => None
  | (k', v) :: d' => if String.eqb k k' then Some v else dict_get k d'
  end.



(* ------------------------------------------------------------------ *)
(** ** A reference [json.loads]

    [json.loads] belongs to the Python library; the pipeline below takes it
    from the [Runtime].  [json_loads_ref] is a reader for the JSON texts used
    in the examples: objects, arrays, strings with the one-letter escapes,
    numbers, [true], [false], [null].  It returns [None] where [json.loads]
    raises [JSONDecodeError]. *)

Definition is_json_ws (c : ascii) : bool :=
  let n := nat_of_ascii c in
  ((n =? 32) || (n =? 9) || (n =? 10) || (n =? 13))%nat.

Fixpoint skip_ws (s : string) : string :=
  match s with
  | EmptyString => EmptyString
  | String c s' => if is_json_ws c then skip_ws s' else s
  end.

Definition is_digit (c : ascii) : bool :=
  let n := nat_of_ascii c in ((48 <=? n) && (n <=? 57))%nat.

(** The longest prefix of digits, and the rest. *)
Fixpoint digits (s : string) : string * string :=
  match s with
  | EmptyString => (EmptyString, EmptyString)
  | String c s' =>
      if is_digit c
      then let (d, r) := digits s' in (String c d, r)
      else (EmptyString, s)
  end.

Definition unescape (c : ascii) : option ascii :=
  let n := nat_of_ascii c in
  if (n =? 34)%nat then Some c            (* quote *)
  else if (n =? 92)%nat then Some c       (* backslash *)
  else if (n =? 47)%nat then Some c       (* slash *)
  else if (n =? 98)%nat then Some (ascii_of_nat 8)
  else if (n =? 102)%nat then Some (ascii_of_nat 12)
  else if (n =? 110)%nat then Some (ascii_of_nat 10)
  else if (n =? 114)%nat then Some (ascii_of_nat 13)
  else if (n =? 116)%nat then Some (ascii_of_nat 9)
  else None.

(** The body of a string literal, after its opening quote. *)
Fixpoint scan_string (s : string) : option (string * string) :=
  match s with
  | EmptyString => None
  | String c r =>
      let n := nat_of_ascii c in
      if (n =? 34)%nat then Some (EmptyString, r)
      else if (n =? 92)%nat then
        match r with
        | String e r' =>
            match unescape e, scan_string r' with
            | Some d, Some (body, rest) => Some (String d body, rest)
            | _, _ => None
            end
        | EmptyString => None
        end
      else if (n <? 32)%nat then None
      else
        match scan_string r with
        | Some (body, rest) => Some (String c body, rest)
        | None => None
        end
  end.

(** A number literal: optional minus, integer part without leading zero,
    optional fraction, optional exponent.  The literal is kept as written. *)
Definition scan_number (s : string) : option (string * string) :=
  let (sign, s1) :=
    match s with
    | String "-" r => ("-", r)
    | _ => (EmptyString, s)
    end in
  let int_part :=
    match s1 with
    | String "0" r => Some ("0", r)
    | _ => match digits s1 with
           | (EmptyString, _) => None
           | (d, r) => Some (d, r)
           end
    end in
  match int_part with
  | None => None
  | Some (ip, s2) =>
      let (frac, s3) :=
        match s2 with
        | String "." r =>
            match digits r with
            | (EmptyString, _) => (EmptyString, s2)
            | (d, r') => ("." ++ d, r')
            end
        | _ => (EmptyString, s2)
        end in
      let (expo, s4) :=
        match s3 with
        | String e r =>
            if (Ascii.eqb e "e" || Ascii.eqb e "E")%bool then
              let (sg, r1) :=
                match r with
                | String "+" r' => ("+", r')
                | String "-" r' => ("-", r')
                | _ => (EmptyString, r)
                end in
              match digits r1 with
              | (EmptyString, _) => (EmptyString, s3)
              | (d, r') => (String e (sg ++ d), r')
              end
            else (EmptyString, s3)
        | EmptyString => (EmptyString, s3)
        end in
      Some (sign ++ ip ++ frac ++ expo, s4)
  end.

(** [true], [false], [null] or a number. *)
Definition scan_atom (s : string) : option (json * string) :=
  match strip_prefix "true" s, strip_prefix "false" s, strip_prefix "null" s with
  | Some r, _, _ => Some (JBool true, r)
  | _, Some r, _ => Some (JBool false, r)
  | _, _, Some r => Some (JNull, r)
  | _, _, _ =>
      match scan_number s with
      | Some (lit, r) => Some (JNum lit, r)
      | None => None
      end
  end.

Definition dquote : ascii := "034"%char.

(** The text after an opening quote, when [s] starts with one. *)
Definition after_quote (s : string) : option string :=
  match s with
  | String c r => if Ascii.eqb c dquote then Some r else None
  | EmptyString => None
  end.

Fixpoint scan_value (fuel : nat) (s : string) : option (json * string) :=
  match fuel with
  | O => None
  | S fuel' =>
      match s with
      | String "{" r =>
          match skip_ws r with
          | String "}" r' => Some (JObj [], r')
          | r' => scan_members fuel' r' []
          end
      | String "[" r =>
          match skip_ws r with
          | String "]" r' => Some (JArr [], r')
          | r' => scan_items fuel' r' []
          end
      | _ =>
          match after_quote s with
          | Some r =>
              match scan_string r with
              | Some (body, rest) => Some (JStr body, rest)
              | None => None
              end
          | None => scan_atom s
          end
      end
  end

with scan_members (fuel : nat) (s : string) (acc : list (string * json))
  : option (json * string) :=
  match fuel with
  | O => None
  | S fuel' =>
      match after_quote s with
      | Some r =>
          match scan_string r with
          | Some (key, r1) =>
              match skip_ws r1 with
              | String ":" r2 =>
                  match scan_value fuel' (skip_ws r2) with
                  | Some (v, r3) =>
                      let acc' := dict_set key v acc in
                      match skip_ws r3 with
                      | String "}" r4 => Some (JObj acc', r4)
                      | String "," r4 => scan_members fuel' (skip_ws r4) acc'
                      | _ => None
                      end
                  | None => None
                  end
              | _ => None
              end
          | None => None
          end
      | None => None
      end
  end

with scan_items (fuel : nat) (s : string) (acc : list json)
  : option (json * string) :=
  match fuel with
  | O => None
  | S fuel' =>
      match scan_value fuel' s with
      | Some (v, r) =>
          match skip_ws r with
          | String "]" r' => Some (JArr (acc ++ [v]), r')
          | String "," r' => scan_items fuel' (skip_ws r') (acc ++ [v])
          | _ => None
          end
      | None => None
      end
  end.

Definition json_loads_ref (s : string) : option json :=
  match scan_value (S (String.length s)) (skip_ws s) with
  | Some (v, rest) =>
      match skip_ws rest with
      | EmptyString => Some v
      | _ => None
      end
  | None => None
  end.

(* ------------------------------------------------------------------ *)
(** ** Candles, the indicator frame and the analysis prompt *)

Record Candle : Type := mkCandle {
  timestamp : Z;
  open : Q;
  high : Q;
  low : Q;
  close : Q;
  volume : Q
}.

(** One row of the data frame of [generate_analysis_prompt]: the candle and
    the four indicator columns. *)
Record Row : Type := mkRow {
  candle : Candle;
  sma_20 : fv;
  sma_50 : fv;
  rsi : fv;
  volume_ma : fv
}.

Definition default_candle : Candle := mkCandle 0 0 0 0 0 0.

(** The frame [df] once the four indicator columns are added.  The candle
    columns are those of the input. *)
Definition indicator_frame (candles : list Candle) : list Row :=
  let closes := map close candles in
  let col_sma_20 := rolling_mean 20 closes in
  let col_sma_50 := rolling_mean 50 closes in
  let col_rsi := calculate_rsi closes 14 in
  let col_volume_ma := rolling_mean 20 (map volume candles) in
  map (fun i => mkRow (nth i candles default_candle)
                      (nth i col_sma_20 NaN) (nth i col_sma_50 NaN)
                      (nth i col_rsi NaN) (nth i col_volume_ma NaN))
      (seq 0 (List.length candles)).

(** [df.tail(n)] and [df.head(n)]. *)
Definition tail (A : Type) (n : nat) (l : list A) : list A :=
  skipn (List.length l - n) l.

Definition head (A : Type) (n : nat) (l : list A) : list A := firstn n l.

(** [(a - b) / b * 100]. *)
Definition pct_change (a b : fv) : fv :=
  fmul (fdiv (fsub a b) b) (Fin 100).

(** The values interpolated into the prompt text.  The text itself is a
    fixed template around them, so the request sent to the recommendation
    collaborator is a function of this record. *)
Record Prompt : Type := mkPrompt {
  latest : Row;
  price_change : fv;
  rel_sma_20 : fv;
  rel_sma_50 : fv;
  previous_5 : list Row
}.

Definition generate_analysis_prompt (candles : list Candle) : result Prompt :=
  let df := indicator_frame candles in
  match rev df with
  | [] => Raise KeyError               (* an empty frame has no columns *)
  | latest :: before =>
      let previous :=
        if (1 <? List.length df)%nat then
          match before with
          | p :: _ => p
          | [] => latest
          end
        else latest in
      let c := Fin (close (candle latest)) in
      Ok (mkPrompt latest
                   (pct_change c (Fin (close (candle previous))))
                   (pct_change c (sma_20 latest))
                   (pct_change c (sma_50 latest))
                   (head 5 (tail 6 df)))
  end.

(* ------------------------------------------------------------------ *)
(** ** The runtime: library functions and collaborators *)

Record Runtime : Type := mkRuntime {
  (** [json.loads]; [None] is [JSONDecodeError]. *)
  json_loads : string -> option json;
  (** [int(text)]; [None] is [ValueError]. *)
  py_int : string -> option Z;
  (** [int(datetime.fromisoformat(text.replace('Z', '+00:00')).timestamp())];
      [None] is [ValueError]. *)
  iso_timestamp : string -> option Z;
  (** [datetime.fromtimestamp(ts).isoformat()]. *)
  isoformat : Z -> string;
  (** [time.time()], in whole seconds. *)
  current_time : Z;
  (** [os.getenv('DEEPSEEK_API_KEY')]. *)
  deepseek_api_key : option string;
  (** The market-data collaborator: the rows of the OHLC answer for a pair,
      an interval and the [since] parameter when it is sent. *)
  kraken_ohlc : string -> Z -> option Z -> result (list Candle);
  (** The recommendation collaborator: the [content] text of the answer to
      the [n]-th request of this run. *)
  deepseek_chat : nat -> Prompt -> result string
}.

Definition fetch_kraken_candles (rt : Runtime) (symbol : string) (interval : Z)
    (since : Z) : result (list Candle) :=
  reraise (fun e => Exception "Failed to fetch Kraken data: " (Some e))
          (kraken_ohlc rt symbol interval
                       (if (since =? 0)%Z then None else Some since)).

(* ------------------------------------------------------------------ *)
(** ** RecommendationParser: the parsing part of [get_deepseek_analysis] *)

(** The text handed to [json.loads] first. *)
Definition extract_json_str (content : string) : result string :=
  if contains "```json" content then
    a <- item (split "```json" content) 1 ;;
    b <- item (split "```" a) 0 ;;
    Ok (strip b)
  else if contains "```" content then
    a <- item (split "```" content) 1 ;;
    b <- item (split "```" a) 0 ;;
    Ok (strip b)
  else Ok content.

Definition could_not_parse : exn :=
  Exception "Could not parse JSON from DeepSeek response" None.

(** The inner [try ... except json.JSONDecodeError] block.  Only the first
    [json.loads] is guarded; a decode error of the fallback escapes. *)
Definition parse_content (rt : Runtime) (content : string) : result json :=
  json_str <- extract_json_str content ;;
  match json_loads rt json_str with
  | Some v => Ok v
  | None =>
      match re_search_braces content with
      | Some m =>
          match json_loads rt m with
          | Some v => Ok v
          | None => Raise JSONDecodeError
          end
      | None => Raise could_not_parse
      end
  end.

Definition truthy (s : option string) : bool :=
  match s with
  | Some (String _ _) => true
  | _ => false
  end.

(** [get_deepseek_analysis], as the [n]-th request of the run. *)
Definition get_deepseek_analysis (rt : Runtime) (n : nat) (prompt : Prompt)
  : result json :=
  if negb (truthy (deepseek_api_key rt)) then
    Raise (Exception "DeepSeek API key not configured" None)
  else
    reraise (fun e => Exception "DeepSeek API error: " (Some e))
            (content <- deepseek_chat rt n prompt ;;
             parse_content rt content).

(* ------------------------------------------------------------------ *)
(** ** ReplayOrchestrator: [get_signals] *)

Record SignalRecord : Type := mkSignal {
  sig_timestamp : Z;
  sig_datetime : string;
  sig_price : Q;
  sig_analysis : json
}.

Record Request : Type := mkRequest {
  arg_symbol : option string;
  arg_interval : option string;
  arg_date : option string
}.

Record Body : Type := mkBody {
  body_symbol : string;
  body_interval : Z;
  total_candles : nat;
  signals : list SignalRecord
}.

Inductive Response : Type :=
| Success (b : Body)                 (* status 200 *)
| BadRequest (msg : string)          (* status 400 *)
| NotFound (msg : string)            (* status 404 *)
| ServerError (e : exn).             (* status 500, message [str(e)] *)

Definition DEFAULT_SYMBOL : string := "XBTUSD".
Definition DEFAULT_INTERVAL : Z := 60.

Definition signal_for (rt : Runtime) (c : Candle) (analysis : json) : SignalRecord :=
  mkSignal (timestamp c) (isoformat rt (timestamp c)) (close c) analysis.

(** The loop [for i in range(len(candles))], over the indices still to
    visit; [acc] is the list [signals] built so far, whose length is also
    the number of requests already sent to the collaborator. *)
(** The body of the replay loop for index [i], as the [n]-th request. *)
Definition replay_step (rt : Runtime) (candles : list Candle) (n i : nat)
  : result SignalRecord :=
  prompt <- generate_analysis_prompt (firstn (i + 1) candles) ;;
  analysis <- get_deepseek_analysis rt n prompt ;;
  c <- item candles i ;;
  Ok (signal_for rt c analysis).

Fixpoint replay (rt : Runtime) (candles : list Candle) (indices : list nat)
    (acc : list SignalRecord) : result (list SignalRecord) :=
  match indices with
  | [] => Ok acc
  | i :: rest =>
      if (49 <=? i)%nat then
        s <- replay_step rt candles (List.length acc) i ;;
        replay rt candles rest (acc ++ [s])
      else replay rt candles rest acc
  end.

(** The single signal for the latest candle. *)
Definition single (rt : Runtime) (candles : list Candle) : result (list SignalRecord) :=
  prompt <- generate_analysis_prompt candles ;;
  analysis <- get_deepseek_analysis rt 0 prompt ;;
  c <- item candles (List.length candles - 1) ;;
  Ok [signal_for rt c analysis].

Definition since_of (rt : Runtime) (date : option Z) (interval : Z) : Z :=
  match date with
  | Some target_timestamp => since_for_date (current_time rt) target_timestamp interval
  | None => since_now (current_time rt) interval
  end.

(** The part of [get_signals] after the date is parsed; [date] is the
    target timestamp when a date was given. *)
Definition signals_for (rt : Runtime) (symbol : string) (interval : Z)
    (date : option Z) : result Response :=
  candles <- fetch_kraken_candles rt symbol interval (since_of rt date interval) ;;
  match candles with
  | [] => Ok (NotFound "No candle data found")
  | _ =>
      sigs <- (match date with
               | Some _ =>
                   if (1 <? List.length candles)%nat
                   then replay rt candles (seq 0 (List.length candles)) []
                   else single rt candles
               | None => single rt candles
               end) ;;
      Ok (Success (mkBody symbol interval (List.length candles) sigs))
  end.

Definition invalid_date : string :=
  "Invalid date format. Use ISO format (e.g., 2024-01-15T12:00:00Z)".

(** [request.args.get('symbol', DEFAULT_SYMBOL)]. *)
Definition symbol_of (req : Request) : string :=
  match arg_symbol req with Some s => s | None => DEFAULT_SYMBOL end.

(** [int(request.args.get('interval', DEFAULT_INTERVAL))]. *)
Definition interval_of (rt : Runtime) (req : Request) : result Z :=
  match arg_interval req with
  | Some s => match py_int rt s with
              | Some z => Ok z
              | None => Raise ValueError
              end
  | None => Ok DEFAULT_INTERVAL
  end.

Definition get_signals (rt : Runtime) (req : Request) : Response :=
  let symbol := symbol_of req in
  let run :=
    interval <- interval_of rt req ;;
    match arg_date req with
    | Some (String _ _ as date_param) =>
        match iso_timestamp rt date_param with
        | Some target_timestamp => signals_for rt symbol interval (Some target_timestamp)
        | None => Ok (BadRequest invalid_date)
        end
    | _ => signals_for rt symbol interval None       (* no date, or an empty one *)
    end in
  match run with
  | Ok response => response
  | Raise e => ServerError e
  end.

(* ------------------------------------------------------------------ *)
(** ** Vocabulary of the statements *)

(** A request with a usable date: the interval parses, the date is present,
    non-empty and parses to [target]. *)
Definition dated (rt : Runtime) (req : Request) (interval target : Z) : Prop :=
  interval_of rt req = Ok interval /\
  exists date_param,
    arg_date req = Some date_param /\ date_param <> EmptyString /\
    iso_timestamp rt date_param = Some target.

(** The candles fetched for such a request. *)
Definition fetched (rt : Runtime) (req : Request) (interval target : Z)
    (candles : list Candle) : Prop :=
  dated rt req interval target /\
  fetch_kraken_candles rt (symbol_of req) interval
    (since_for_date (current_time rt) target interval) = Ok candles.

Definition respond (r : result Response) : Response :=
  match r with
  | Ok response => response
  | Raise e => ServerError e
  end.

(** The three ways a recommendation is not obtained: no credential, a
    failure of the collaborator, a response that does not parse. *)
Definition recommendation_fails (rt : Runtime) (n : nat) (p : Prompt) : Prop :=
  truthy (deepseek_api_key rt) = false \/
  (exists e, deepseek_chat rt n p = Raise e) \/
  (exists content e, deepseek_chat rt n p = Ok content /\
                     parse_content rt content = Raise e).

(** [c] does not occur in [s]. *)
Fixpoint absent (c : ascii) (s : string) : bool :=
  match s with
  | EmptyString => true
  | String a s' => negb (Ascii.eqb a c) && absent c s'
  end.


(** The first piece of [s.split(sep)]. *)
Definition before (sep s : string) : string :=
  match partition sep s with
  | Some (b, _) => b
  | None => s
  end.

(** A text that opens with a brace and closes with one. *)
Definition object_text (J : string) : Prop :=
  exists mid, J = "{" ++ mid ++ "}".



Definition in_prose (pre J post : string) : string :=
  pre ++ J ++ post.

(* ------------------------------------------------------------------ *)
(** ** Fixtures for the examples *)

(** [s] between double quotes. *)
Definition quoted (s : string) : string :=
  String dquote (s ++ String dquote EmptyString).

(** The JSON text [{"signal": "HOLD"}]. *)
Definition hold_body : string :=
  "{" ++ quoted "signal" ++ ": " ++ quoted "HOLD" ++ "}".

(** The JSON text [{"signal": "MAYBE"}]. *)
Definition maybe_body : string :=
  "{" ++ quoted "signal" ++ ": " ++ quoted "MAYBE" ++ "}".

(** Hourly candles from a fixed start, with rising prices. *)
Definition fixture_candle (k : nat) : Candle :=
  let price := inject_Z (30000 + Z.of_nat k) in
  mkCandle (1700000000 + 3600 * Z.of_nat k) price price price price 1.

Definition fixture_candles (n : nat) : list Candle :=
  map fixture_candle (seq 0 n).

(** A runtime with the reference JSON reader, stubbed parsers and clock, a
    market-data collaborator that returns [candles] and a recommendation
    collaborator that answers the [n]-th request with [answer n]. *)
Definition fixture_runtime (key : option string) (candles : list Candle)
    (answer : nat -> result string) : Runtime :=
  mkRuntime json_loads_ref
            (fun _ => Some 60%Z)
            (fun _ => Some 1700200000%Z)
            (fun _ => "2023-11-14T22:13:20")
            1700300000%Z
            key
            (fun _ _ _ => Ok candles)
            (fun n _ => answer n).

Definition fixture_request : Request :=
  mkRequest None None (Some "2023-11-17T05:46:40Z").

(** A prompt, for the examples that do not look at it. *)
Definition fixture_prompt : Prompt :=
  mkPrompt (mkRow (fixture_candle 0) NaN NaN NaN NaN) NaN NaN NaN [].



(* ------------------------------------------------------------------ *)
(** ** Vocabulary of the further statements *)

(** A request without a usable date: the interval parses and the date is
    absent or empty. *)
Definition undated (rt : Runtime) (req : Request) (interval : Z) : Prop :=
  interval_of rt req = Ok interval /\
  (arg_date req = None \/ arg_date req = Some EmptyString).

(** The candles fetched with [since], whatever the mode. *)
Definition got (rt : Runtime) (req : Request) (interval since : Z)
    (candles : list Candle) : Prop :=
  fetch_kraken_candles rt (symbol_of req) interval since = Ok candles.

(** The request reaches the fetch with [interval] and [since]; [date] tells
    whether a date was given. *)
Definition planned (rt : Runtime) (req : Request) (interval since : Z)
    (date : bool) : Prop :=
  (date = true /\ exists target,
     dated rt req interval target /\
     since = since_for_date (current_time rt) target interval) \/
  (date = false /\ undated rt req interval /\
     since = since_now (current_time rt) interval).

(** A record for the candle [c]. *)
Definition record_of (rt : Runtime) (s : SignalRecord) (c : Candle) : Prop :=
  sig_timestamp s = timestamp c /\
  sig_price s = close c /\
  sig_datetime s = isoformat rt (timestamp c).

(** The mode of a request that got [candles]: one signal for the latest
    candle unless a date is given and more than one candle came back. *)
Definition single_mode (date : bool) (candles : list Candle) : Prop :=
  candles <> [] /\ (date = false \/ List.length candles = 1%nat).

(* ------------------------------------------------------------------ *)
(** ** Further fixtures *)

Definition stub_int (s : string) : option Z :=
  if String.eqb s "15" then Some 15%Z
  else if String.eqb s "60" then Some 60%Z
  else None.

Definition stub_iso (s : string) : option Z :=
  if String.eqb s "2023-11-17T05:46:40Z" then Some 1700200000%Z else None.

(** A runtime whose parsers know a few texts only, with a market-data
    collaborator that answers [market] and a recommendation collaborator
    that answers the [n]-th request with [answer n]. *)
Definition fixture_world (key : option string) (market : result (list Candle))
    (answer : nat -> result string) : Runtime :=
  mkRuntime json_loads_ref stub_int stub_iso
            (fun _ => "2023-11-14T22:13:20")
            1700300000%Z
            key
            (fun _ _ _ => market)
            (fun n _ => answer n).

(** A request without date, for 15-minute candles. *)
Definition undated_request : Request :=
  mkRequest (Some "ETHUSD") (Some "15") None.

(** A request with a date that does not parse. *)
Definition misdated_request : Request :=
  mkRequest None (Some "60") (Some "yesterday").

(** A request whose interval is not a number. *)
Definition misinterval_request : Request :=
  mkRequest None (Some "hourly") (Some "yesterday").

(** A response with two objects: [{"signal": "HOLD"} or {"signal": "MAYBE"}]. *)
Definition two_objects : string := hold_body ++ " or " ++ maybe_body.

Definition default_row : Row := mkRow default_candle NaN NaN NaN NaN.


(* ------------------------------------------------------------------ *)
(** ** The candles of a Kraken response ([fetch_kraken_candles], the part
       between the decoded response and the returned list) *)

(** What can go wrong between the decoded response and the candle list.
    [fetch_kraken_candles] turns each of them into its one exception with
    the prefix of the fetch. *)
Inductive ohlc_error : Type :=
| KrakenApiError (error : json)     (* the [error] entry is not empty *)
| NotAnObject                       (* [.get] or [.keys] on a non-dict *)
| NoResult                          (* [data['result']]: no such key *)
| NoSecondKey                       (* [list(...keys())[1]]: index error *)
| NotIterable                       (* [for candle in ohlc_data] *)
| RowTooShort                       (* [candle[i]]: index error *)
| NotIndexable                      (* [candle[i]] on a number or a dict *)
| NotANumber.                       (* [int(...)] or [float(...)] refuses *)

(** A number literal is zero when its mantissa holds no digit but 0. *)
Fixpoint zero_mantissa (s : string) : bool :=
  match s with
  | EmptyString => true
  | String c s' =>
      if (Ascii.eqb c "e" || Ascii.eqb c "E")%bool then true
      else if (Ascii.eqb c "0" || Ascii.eqb c "." || Ascii.eqb c "-")%bool
           then zero_mantissa s'
           else false
  end.

(** The truth value of a decoded JSON value. *)
Definition json_truthy (v : json) : bool :=
  match v with
  | JNull => false
  | JBool b => b
  | JNum lit => negb (zero_mantissa lit)
  | JStr s => negb (String.eqb s EmptyString)
  | JArr items => match items with [] => false | _ => true end
  | JObj members => match members with [] => false | _ => true end
  end.

(** The characters of a text, each as a text. *)
Fixpoint chars (s : string) : list json :=
  match s with
  | EmptyString => []
  | String c s' => JStr (String c EmptyString) :: chars s'
  end.

(** [for x in v]: a list gives its items, a text its characters, a dict its
    keys; the other values are not iterable. *)
Definition iterate (v : json) : ohlc_error + list json :=
  match v with
  | JArr items => inr items
  | JStr s => inr (chars s)
  | JObj members => inr (map (fun kv => JStr (fst kv)) members)
  | _ => inl NotIterable
  end.

(** [v[i]] for a non-negative integer [i]. *)
Definition subscript (v : json) (i : nat) : ohlc_error + json :=
  match v with
  | JArr items =>
      match nth_error items i with
      | Some x => inr x
      | None => inl RowTooShort
      end
  | JStr s =>
      match nth_error (chars s) i with
      | Some x => inr x
      | None => inl RowTooShort
      end
  | _ => inl NotIndexable
  end.

(** [int] and [float] of Python, on decoded JSON values; [None] when they
    refuse the value. *)
Record Conversions : Type := mkConversions {
  to_int : json -> option Z;
  to_float : json -> option Q
}.

Definition convert {A} (f : json -> option A) (v : ohlc_error + json)
  : ohlc_error + A :=
  match v with
  | inl e => inl e
  | inr x => match f x with
             | Some a => inr a
             | None => inl NotANumber
             end
  end.

(** The dict built for one row: time, open, high, low, close from the
    entries 0 to 4 and the volume from entry 6. *)
Definition candle_of_row (cv : Conversions) (row : json) : ohlc_error + Candle :=
  match convert (to_int cv) (subscript row 0) with
  | inl e => inl e
  | inr t =>
  match convert (to_float cv) (subscript row 1) with
  | inl e => inl e
  | inr o =>
  match convert (to_float cv) (subscript row 2) with
  | inl e => inl e
  | inr h =>
  match convert (to_float cv) (subscript row 3) with
  | inl e => inl e
  | inr l =>
  match convert (to_float cv) (subscript row 4) with
  | inl e => inl e
  | inr c =>
  match convert (to_float cv) (subscript row 6) with
  | inl e => inl e
  | inr v => inr (mkCandle t o h l c v)
  end end end end end end.

(** The loop over the rows: the first failing row ends it. *)
Fixpoint candles_of_rows (cv : Conversions) (rows : list json)
  : ohlc_error + list Candle :=
  match rows with
  | [] => inr []
  | row :: rest =>
      match candle_of_row cv row with
      | inl e => inl e
      | inr c =>
          match candles_of_rows cv rest with
          | inl e => inl e
          | inr cs => inr (c :: cs)
          end
      end
  end.

(** From the decoded response to the candle list: the [error] check, then
    the value under the second key of [result]. *)
Definition candles_of_response (cv : Conversions) (data : json)
  : ohlc_error + list Candle :=
  match data with
  | JObj d =>
      match dict_get "error" d with
      | Some e =>
          if json_truthy e then inl (KrakenApiError e)
          else
            match dict_get "result" d with
            | None => inl NoResult
            | Some (JObj result) =>
                match nth_error result 1 with
                | None => inl NoSecondKey
                | Some (_, ohlc_data) =>
                    match iterate ohlc_data with
                    | inl e => inl e
                    | inr rows => candles_of_rows cv rows
                    end
                end
            | Some _ => inl NotAnObject
            end
      | None =>
          match dict_get "result" d with
          | None => inl NoResult
          | Some (JObj result) =>
              match nth_error result 1 with
              | None => inl NoSecondKey
              | Some (_, ohlc_data) =>
                  match iterate ohlc_data with
                  | inl e => inl e
                  | inr rows => candles_of_rows cv rows
                  end
              end
          | Some _ => inl NotAnObject
          end
      end
  | _ => inl NotAnObject
  end.

(** A response in the layout of the Kraken documentation: an empty error
    list, and a result with the rows under the pair name followed by the
    [last] entry. *)
Definition kraken_layout (pair : string) (rows : list json) (last : string) : json :=
  JObj [("error", JArr []);
        ("result", JObj [(pair, JArr rows); ("last", JNum last)])].

(** The same with the two entries of the result exchanged. *)
Definition swapped_layout (pair : string) (rows : list json) (last : string) : json :=
  JObj [("error", JArr []);
        ("result", JObj [("last", JNum last); (pair, JArr rows)])].

(** Conversions that know the numbers of [stub_int] only, and a row of
    eight entries in their terms. *)
Definition stub_conversions : Conversions :=
  mkConversions
    (fun v => match v with JNum lit => stub_int lit | _ => None end)
    (fun v => match v with
              | JStr s => option_map inject_Z (stub_int s)
              | _ => None
              end).

Definition fixture_row : json :=
  JArr [JNum "60"; JStr "15"; JStr "60"; JStr "15"; JStr "15";
        JStr "vwap"; JStr "60"; JNum "7"].

(** The [i]-th entry of a row under a conversion, where both exist. *)
Definition entry {A} (f : json -> option A) (items : list json) (i : nat) : option A :=
  match nth_error items i with
  | Some x => f x
  | None => None
  end.

(* ================================================================== *)
(** * Properties *)

Open Scope list_scope.

(* ------------------------------------------------------------------ *)
(** ** CandleWindowPlanner *)

Lemma clamp_min_max (x : Z) : Z.min 50 (Z.max 1 x) = clamp x 1 50.
Proof.
  unfold clamp.
  destruct (Z.ltb_spec x 1); destruct (Z.ltb_spec 50 x); lia.
Qed.

(** C5.  With [cutoff = now - 50 hours]: for a target date later than the
    cutoff the planner takes [hours_remaining = floor((target - cutoff) / 3600)],
    [candle_count = clamp(hours_remaining, 1, 50)] and
    [since = target - candle_count * interval * 60]; for a target date at or
    before the cutoff the count is 50; and a target ten hours before now
    gives [hours_remaining = 40] and [candle_count = 40]. *)
Theorem planner_window (now target interval : Z) :
  let cutoff := (now - 50 * 3600)%Z in
  ((target > cutoff)%Z ->
     hours_remaining now target = ((target - cutoff) / 3600)%Z /\
     candles_to_fetch now target = clamp (hours_remaining now target) 1 50 /\
     since_for_date now target interval =
       (target - clamp (hours_remaining now target) 1 50 * interval * 60)%Z) /\
  ((target <= cutoff)%Z ->
     candles_to_fetch now target = 50%Z /\
     since_for_date now target interval = (target - 50 * interval * 60)%Z) /\
  hours_remaining now (now - 10 * 3600) = 40%Z /\
  candles_to_fetch now (now - 10 * 3600) = 40%Z.
Proof.
  intros cutoff. subst cutoff.
  assert (H40 : hours_remaining now (now - 10 * 3600) = 40%Z).
  { unfold hours_remaining, fifty_hours_ago.
    replace (now - 10 * 3600 - (now - 50 * 3600))%Z with (40 * 3600)%Z by lia.
    apply Z.div_mul. lia. }
  repeat split.
  - unfold since_for_date. f_equal. f_equal. f_equal.
    unfold candles_to_fetch, fifty_hours_ago.
    destruct (Z.gtb_spec target (now - 50 * 3600)); [apply clamp_min_max | lia].
  - unfold since_for_date, candles_to_fetch, fifty_hours_ago.
    destruct (Z.gtb_spec target (now - 50 * 3600)); [| lia].
    now rewrite clamp_min_max.
  - unfold candles_to_fetch, fifty_hours_ago.
    destruct (Z.gtb_spec target (now - 50 * 3600)); [lia | reflexivity].
  - unfold since_for_date, candles_to_fetch, fifty_hours_ago.
    destruct (Z.gtb_spec target (now - 50 * 3600)); [lia | reflexivity].
  - exact H40.
  - unfold candles_to_fetch, fifty_hours_ago.
    destruct (Z.gtb_spec (now - 10 * 3600) (now - 50 * 3600)); [| lia].
    rewrite H40. reflexivity.
Qed.

(* ------------------------------------------------------------------ *)
(** ** IndicatorEngine: moving averages *)

Section ListFacts.
Context {A : Type}.

Lemma map_nth_seq (l : list A) (d : A) :
  map (fun i => nth i l d) (seq 0 (List.length l)) = l.
Proof.
  induction l as [| a l IH]; simpl; [reflexivity |].
  f_equal. rewrite <- seq_shift, map_map. exact IH.
Qed.

Lemma nth_error_map_seq {B : Type} (f : nat -> B) (n i : nat) :
  (i < n)%nat -> nth_error (map f (seq 0 n)) i = Some (f i).
Proof.
  intros Hi. rewrite nth_error_map, nth_error_seq.
  destruct (Nat.ltb_spec i n); [reflexivity | lia].
Qed.



End ListFacts.


Lemma nth_error_rolling_mean (w i : nat) (xs : list Q) :
  (i < List.length xs)%nat ->
  nth_error (rolling_mean w xs) i =
    Some (if (i + 1 <? w)%nat then NaN else Fin (window_mean w i xs)).
Proof. intros Hi. unfold rolling_mean. now rewrite nth_error_map_seq. Qed.

Lemma frame_candles (candles : list Candle) :
  map candle (indicator_frame candles) = candles.
Proof.
  unfold indicator_frame. rewrite map_map. simpl. apply map_nth_seq.
Qed.

Lemma length_indicator_frame (candles : list Candle) :
  List.length (indicator_frame candles) = List.length candles.
Proof. unfold indicator_frame. now rewrite length_map, length_seq. Qed.



(* ------------------------------------------------------------------ *)
(** ** IndicatorEngine: RSI *)



Lemma Qis0_false (x : Q) : ~ x == 0 -> Qis0 x = false.
Proof.
  intros H. unfold Qis0. destruct (Qeq_bool x 0) eqn:E; [| reflexivity].
  apply Qeq_bool_iff in E. contradiction.
Qed.

Lemma Qis0_true (x : Q) : x == 0 -> Qis0 x = true.
Proof. intros H. unfold Qis0. now apply Qeq_bool_iff. Qed.









Lemma length_diff (xs : list Q) : List.length (diff xs) = List.length xs.
Proof.
  destruct xs as [| x t]; simpl; [reflexivity |]. f_equal.
  revert x. induction t as [| y t IH]; intros x; simpl; [reflexivity |].
  now rewrite IH.
Qed.

Lemma length_gains (prices : list Q) : List.length (gains prices) = List.length prices.
Proof. unfold gains. now rewrite length_map, length_diff. Qed.

Lemma length_losses (prices : list Q) : List.length (losses prices) = List.length prices.
Proof. unfold losses. now rewrite length_map, length_diff. Qed.

Lemma zip_with_map {A B C D} (f : B -> C -> D) (g : A -> B) (h : A -> C) (l : list A) :
  zip_with f (map g l) (map h l) = map (fun a => f (g a) (h a)) l.
Proof. induction l as [| a l IH]; simpl; [reflexivity | now rewrite IH]. Qed.

(** The value of the RSI column at an index inside the series. *)
Lemma nth_error_calculate_rsi (prices : list Q) (period i : nat) :
  (i < List.length prices)%nat ->
  nth_error (calculate_rsi prices period) i =
    Some (if (i + 1 <? period)%nat then NaN
          else rsi_of_rs (fdiv (Fin (window_mean period i (gains prices)))
                               (Fin (window_mean period i (losses prices))))).
Proof.
  intros Hi. unfold calculate_rsi, rolling_mean.
  rewrite length_gains, length_losses, zip_with_map, map_map.
  rewrite nth_error_map_seq by exact Hi.
  destruct (i + 1 <? period)%nat; reflexivity.
Qed.








(* ------------------------------------------------------------------ *)
(** ** PromptBuilder *)

Lemma generate_analysis_prompt_total (candles : list Candle) :
  candles <> [] -> exists p, generate_analysis_prompt candles = Ok p.
Proof.
  intros Hne. unfold generate_analysis_prompt.
  destruct (rev (indicator_frame candles)) as [| r before] eqn:E.
  - exfalso. apply Hne.
    assert (H : List.length (rev (indicator_frame candles)) = 0%nat) by now rewrite E.
    rewrite length_rev, length_indicator_frame in H.
    now apply length_zero_iff_nil.
  - eexists. reflexivity.
Qed.

Lemma pct_change_self (x : Q) :
  (~ x == 0 -> feq (pct_change (Fin x) (Fin x)) (Fin 0)) /\
  (x == 0 -> pct_change (Fin x) (Fin x) = NaN).
Proof.
  unfold pct_change, fsub, fdiv, fmul. simpl. split.
  - intros Hx. rewrite Qis0_false by exact Hx. simpl.
    field_simplify_eq; [ring | exact Hx].
  - intros Hx. rewrite (Qis0_true Hx).
    rewrite Qis0_true by lra. reflexivity.
Qed.

(** C10, as the code has it.  The prompt builder returns a prompt for
    every non-empty candle sequence.  For a sequence of exactly one candle
    the latest row is also taken as the previous one: the price change is 0
    when the close is not zero, and NaN (0/0) when the close is zero. *)
Theorem prompt_single_candle (candles : list Candle) :
  candles <> [] ->
  exists p, generate_analysis_prompt candles = Ok p /\
    forall c, candles = [c] ->
      candle (latest p) = c /\
      price_change p = pct_change (Fin (close c)) (Fin (close c)) /\
      (~ close c == 0 -> feq (price_change p) (Fin 0)) /\
      (close c == 0 -> price_change p = NaN).
Proof.
  intros Hne.
  destruct (generate_analysis_prompt_total Hne) as (p & Hp).
  exists p. split; [exact Hp |].
  intros c ->. cbv in Hp. injection Hp as <-. simpl.
  split; [reflexivity | split; [reflexivity |]].
  apply pct_change_self.
Qed.

Lemma prompt_single_candle_witness :
  let c := mkCandle 1700000000 (inject_Z 5) (inject_Z 7) (inject_Z 4) (inject_Z 6) 1 in
  exists p, generate_analysis_prompt [c] = Ok p /\ feq (price_change p) (Fin 0).
Proof.
  intros c.
  destruct (@prompt_single_candle [c]) as (p & Hp & H); [discriminate |].
  exists p. split; [exact Hp |].
  destruct (H c eq_refl) as (_ & _ & Hnz & _).
  apply Hnz. vm_compute. discriminate.
Defined.

(** C10 fails for a single candle whose close is zero: the change is 0/0. *)
Lemma prompt_single_candle_zero_close :
  let c := mkCandle 1700000000 0 0 0 0 0 in
  exists p, generate_analysis_prompt [c] = Ok p /\ price_change p = NaN.
Proof.
  intros c. eexists. split; reflexivity.
Qed.

(* ------------------------------------------------------------------ *)
(** ** ReplayOrchestrator *)

Lemma get_signals_dated (rt : Runtime) (req : Request) (interval target : Z) :
  dated rt req interval target ->
  get_signals rt req = respond (signals_for rt (symbol_of req) interval (Some target)).
Proof.
  intros (Hint & d & Hd & Hne & Hiso).
  unfold get_signals. rewrite Hint. simpl. rewrite Hd.
  destruct d as [| a d']; [congruence |].
  rewrite Hiso. reflexivity.
Qed.

(** In replay mode the response is built from the result of the loop. *)
Lemma get_signals_replay (rt : Runtime) (req : Request) (interval target : Z)
    (candles : list Candle) :
  fetched rt req interval target candles ->
  (1 < List.length candles)%nat ->
  get_signals rt req =
    match replay rt candles (seq 0 (List.length candles)) [] with
    | Ok sigs => Success (mkBody (symbol_of req) interval (List.length candles) sigs)
    | Raise e => ServerError e
    end.
Proof.
  intros (Hd & Hf) Hlen.
  rewrite (get_signals_dated Hd). unfold signals_for, since_of.
  rewrite Hf. simpl.
  destruct candles as [| c cs]; [simpl in Hlen; lia |].
  destruct (Nat.ltb_spec 1 (List.length (c :: cs))); [| lia].
  destruct (replay rt (c :: cs) (seq 0 (List.length (c :: cs))) []); reflexivity.
Qed.

Lemma replay_cons (rt : Runtime) (candles : list Candle) (i : nat)
    (rest : list nat) (acc : list SignalRecord) :
  replay rt candles (i :: rest) acc =
    if (49 <=? i)%nat then
      s <- replay_step rt candles (List.length acc) i ;;
      replay rt candles rest (acc ++ [s])
    else replay rt candles rest acc.
Proof. reflexivity. Qed.

(** Indices below 49 are skipped. *)
Lemma replay_skip (rt : Runtime) (candles : list Candle) (rest : list nat)
    (acc : list SignalRecord) (m k : nat) :
  (k + m <= 49)%nat ->
  replay rt candles (seq k m ++ rest) acc = replay rt candles rest acc.
Proof.
  revert k. induction m as [| m IH]; intros k Hk; cbn [seq app]; [reflexivity |].
  rewrite replay_cons.
  destruct (Nat.leb_spec 49 k); [lia |].
  apply IH. lia.
Qed.

Lemma replay_from_49 (rt : Runtime) (candles : list Candle) :
  replay rt candles (seq 0 (List.length candles)) [] =
  replay rt candles (seq 49 (List.length candles - 49)) [].
Proof.
  destruct (Nat.le_gt_cases 49 (List.length candles)) as [H | H].
  - replace (List.length candles) with (49 + (List.length candles - 49))%nat at 1 by lia.
    rewrite seq_app. apply replay_skip. lia.
  - replace (List.length candles - 49)%nat with 0%nat by lia. simpl.
    rewrite <- (app_nil_r (seq 0 (List.length candles))).
    apply replay_skip. lia.
Qed.

(** What a completed loop has produced: one record per index, each the
    result of the loop body for that index and request number. *)
Lemma replay_seq_ok (rt : Runtime) (candles : list Candle) (m k : nat)
    (acc sigs : list SignalRecord) :
  (49 <= k)%nat ->
  replay rt candles (seq k m) acc = Ok sigs ->
  exists new, sigs = acc ++ new /\ List.length new = m /\
    forall j s, nth_error new j = Some s ->
      replay_step rt candles (List.length acc + j) (k + j) = Ok s.
Proof.
  revert k acc. induction m as [| m IH]; intros k acc Hk H; cbn [seq] in H.
  - injection H as <-. exists []. rewrite app_nil_r.
    split; [reflexivity | split; [reflexivity |]].
    intros j s Hj. destruct j; discriminate.
  - rewrite replay_cons in H.
    destruct (Nat.leb_spec 49 k); [| lia].
    destruct (replay_step rt candles (List.length acc) k) as [s0 | e] eqn:E;
      cbn [bind] in H; [| discriminate].
    apply IH in H; [| lia].
    destruct H as (new & -> & Hlen & Hnew).
    exists (s0 :: new). rewrite <- app_assoc. simpl.
    split; [reflexivity | split; [now rewrite Hlen |]].
    intros j s Hj. destruct j as [| j]; simpl in Hj.
    + injection Hj as <-. now rewrite !Nat.add_0_r.
    + apply Hnew in Hj. rewrite length_app in Hj. simpl in Hj.
      replace (List.length acc + S j)%nat with (List.length acc + 1 + j)%nat by lia.
      replace (k + S j)%nat with (S k + j)%nat by lia. exact Hj.
Qed.

(** The loop completes when every step does. *)
Lemma replay_seq_total (rt : Runtime) (candles : list Candle) (m k : nat)
    (acc : list SignalRecord) :
  (forall n i, (49 <= i < List.length candles)%nat ->
               exists s, replay_step rt candles n i = Ok s) ->
  (49 <= k)%nat -> (k + m <= List.length candles)%nat ->
  exists sigs, replay rt candles (seq k m) acc = Ok sigs.
Proof.
  intros Hstep. revert k acc.
  induction m as [| m IH]; intros k acc Hk Hm; cbn [seq].
  - now exists acc.
  - rewrite replay_cons.
    destruct (Nat.leb_spec 49 k); [| lia].
    destruct (Hstep (List.length acc) k) as (s & ->); [lia |].
    cbn [bind]. apply IH; lia.
Qed.

(** The parts of a successful step. *)
Lemma replay_step_ok (rt : Runtime) (candles : list Candle) (n i : nat)
    (s : SignalRecord) :
  replay_step rt candles n i = Ok s ->
  exists p v c,
    generate_analysis_prompt (firstn (i + 1) candles) = Ok p /\
    get_deepseek_analysis rt n p = Ok v /\
    nth_error candles i = Some c /\
    s = signal_for rt c v.
Proof.
  unfold replay_step, item. intros H.
  destruct (generate_analysis_prompt (firstn (i + 1) candles)) as [p |] eqn:Ep;
    [| discriminate].
  cbn [bind] in H.
  destruct (get_deepseek_analysis rt n p) as [v |] eqn:Ev; [| discriminate].
  cbn [bind] in H.
  destruct (nth_error candles i) as [c |] eqn:Ec; [| discriminate].
  cbn [bind] in H. injection H as <-.
  exists p, v, c. auto.
Qed.

Lemma firstn_nonempty (A : Type) (n : nat) (l : list A) :
  l <> [] -> firstn (n + 1) l <> [].
Proof.
  intros Hne. destruct l as [| a l]; [contradiction |].
  rewrite Nat.add_1_r. discriminate.
Qed.

(** A step succeeds when the recommendation is obtained. *)
Lemma replay_step_total (rt : Runtime) (candles : list Candle) (n i : nat) :
  (i < List.length candles)%nat ->
  (forall p, exists v, get_deepseek_analysis rt n p = Ok v) ->
  exists s, replay_step rt candles n i = Ok s.
Proof.
  intros Hi Hok. unfold replay_step, item.
  destruct (@generate_analysis_prompt_total (firstn (i + 1) candles)) as (p & ->).
  { apply firstn_nonempty. intros ->. simpl in Hi. lia. }
  simpl. destruct (Hok p) as (v & ->). simpl.
  destruct (nth_error candles i) as [c |] eqn:E.
  - simpl. eexists. reflexivity.
  - apply nth_error_None in E. lia.
Qed.

Section SortedFacts.
Context {A : Type} (R : A -> A -> Prop).


Lemma StronglySorted_nth (l : list A) :
  StronglySorted R l ->
  forall a b x y, (a < b)%nat ->
    nth_error l a = Some x -> nth_error l b = Some y -> R x y.
Proof.
  induction 1 as [| h l Hs IH Hall]; intros a b x y Hab Ha Hb.
  - destruct a; discriminate.
  - destruct b as [| b]; [lia |]. simpl in Hb.
    destruct a as [| a]; simpl in Ha.
    + injection Ha as <-.
      apply (proj1 (Forall_forall (R h) l) Hall).
      now apply nth_error_In with b.
    + apply (IH a b); [lia | assumption | assumption].
Qed.
End SortedFacts.

(** C9.  With a date and between 2 and 49 fetched candles, the answer is a
    success whose signal list is empty and whose [total_candles] is the
    number of fetched candles. *)
Theorem short_replay_is_empty (rt : Runtime) (req : Request)
    (interval target : Z) (candles : list Candle) :
  fetched rt req interval target candles ->
  (2 <= List.length candles <= 49)%nat ->
  exists b, get_signals rt req = Success b /\
            signals b = [] /\ total_candles b = List.length candles.
Proof.
  intros Hf Hlen.
  rewrite (get_signals_replay Hf) by lia.
  rewrite replay_from_49.
  replace (List.length candles - 49)%nat with 0%nat by lia. simpl.
  eexists. split; [reflexivity | split; reflexivity].
Qed.

Lemma fixture_fetched (key : option string) (candles : list Candle)
    (answer : nat -> result string) :
  fetched (fixture_runtime key candles answer) fixture_request
          60 1700200000 candles.
Proof.
  split; [split; [reflexivity |] | reflexivity].
  eexists. split; [reflexivity | split; [discriminate | reflexivity]].
Qed.

(** Three candles, and not even a credential: an empty success. *)
Lemma short_replay_is_empty_witness :
  exists b,
    get_signals (fixture_runtime None (fixture_candles 3) (fun _ => Raise RequestException))
                fixture_request = Success b /\
    signals b = [] /\ total_candles b = 3%nat.
Proof.
  apply (short_replay_is_empty
           (fixture_fetched None (fixture_candles 3) (fun _ => Raise RequestException))).
  simpl. lia.
Defined.

(** The timestamps of the records of a completed loop. *)
Lemma replay_timestamps (rt : Runtime) (candles : list Candle)
    (sigs : list SignalRecord) :
  replay rt candles (seq 0 (List.length candles)) [] = Ok sigs ->
  List.length sigs = (List.length candles - 49)%nat /\
  map sig_timestamp sigs = map timestamp (skipn 49 candles).
Proof.
  rewrite replay_from_49. intros H.
  apply replay_seq_ok in H; [| lia].
  destruct H as (new & -> & Hlen & Hnew). cbn [app].
  split; [exact Hlen |].
  apply nth_error_ext. intros j.
  rewrite !nth_error_map, nth_error_skipn.
  destruct (nth_error new j) as [s |] eqn:E.
  - apply Hnew, replay_step_ok in E.
    destruct E as (p & v & c & _ & _ & Hc & ->).
    rewrite Hc. reflexivity.
  - apply nth_error_None in E.
    destruct (nth_error candles (49 + j)) as [c |] eqn:Ec; [| reflexivity].
    assert (49 + j < List.length candles)%nat
      by (apply nth_error_Some; congruence).
    lia.
Qed.

(** The loop completes when the recommendation is obtained at every
    request. *)
Lemma replay_completes (rt : Runtime) (candles : list Candle) :
  (forall n p, exists v, get_deepseek_analysis rt n p = Ok v) ->
  exists sigs,
    replay rt candles (seq 0 (List.length candles)) [] = Ok sigs /\
    List.length sigs = (List.length candles - 49)%nat.
Proof.
  intros Hok.
  assert (Hrun : exists sigs,
            replay rt candles (seq 49 (List.length candles - 49)) [] = Ok sigs).
  { destruct (Nat.le_gt_cases 49 (List.length candles)) as [Hge | Hlt].
    - apply replay_seq_total; [| lia | lia].
      intros n i Hi. apply replay_step_total; [lia | apply Hok].
    - replace (List.length candles - 49)%nat with 0%nat by lia.
      now exists []. }
  destruct Hrun as (sigs & Hs).
  rewrite <- replay_from_49 in Hs.
  exists sigs. split; [exact Hs | exact (proj1 (replay_timestamps _ _ Hs))].
Qed.


Lemma hold_analysis (candles : list Candle) (n : nat) (p : Prompt) :
  exists v,
    get_deepseek_analysis
      (fixture_runtime (Some "key") candles (fun _ => Ok hold_body)) n p = Ok v.
Proof. eexists. vm_compute. reflexivity. Qed.


(** The records of a successful replay answer are those of the loop. *)
Lemma success_is_replay (rt : Runtime) (req : Request) (interval target : Z)
    (candles : list Candle) (b : Body) :
  fetched rt req interval target candles ->
  (1 < List.length candles)%nat ->
  get_signals rt req = Success b ->
  replay rt candles (seq 49 (List.length candles - 49)) [] = Ok (signals b).
Proof.
  intros Hf Hlen H.
  rewrite (get_signals_replay Hf) in H by exact Hlen.
  rewrite replay_from_49 in H.
  destruct (replay rt candles (seq 49 (List.length candles - 49)) []);
    [| discriminate].
  injection H as <-. reflexivity.
Qed.

(** C3.  The [j]-th record of a replay answer belongs to the candle at
    index [i = 49 + j]: its recommendation is the answer to the prompt built
    from the prefix [candles[0..i]], and it carries the timestamp of
    [candles[i]].  Every candle of that prefix has a timestamp not above the
    record's when the timestamps ascend, and any candle sequence with the
    same prefix gives the same record at this step. *)
Theorem replay_no_lookahead (rt : Runtime) (req : Request)
    (interval target : Z) (candles : list Candle) (b : Body)
    (j : nat) (s : SignalRecord) :
  fetched rt req interval target candles ->
  (1 < List.length candles)%nat ->
  get_signals rt req = Success b ->
  nth_error (signals b) j = Some s ->
  let i := (49 + j)%nat in
  let used := firstn (i + 1) candles in
  exists p v c,
    nth_error candles i = Some c /\
    generate_analysis_prompt used = Ok p /\
    get_deepseek_analysis rt j p = Ok v /\
    s = signal_for rt c v /\
    sig_timestamp s = timestamp c /\
    (StronglySorted Z.le (map timestamp candles) ->
     Forall (fun u => (timestamp u <= sig_timestamp s)%Z) used) /\
    (forall candles', firstn (i + 1) candles' = used ->
                      replay_step rt candles' j i = Ok s).
Proof.
  intros Hf Hlen Hb Hj i used.
  apply (success_is_replay Hf Hlen) in Hb.
  apply replay_seq_ok in Hb; [| lia].
  destruct Hb as (new & Hnew & _ & Hstep). cbn [app] in Hnew.
  rewrite Hnew in Hj. apply Hstep in Hj.
  change (List.length (@nil SignalRecord) + j)%nat with j in Hj.
  fold i in Hj.
  destruct (replay_step_ok _ _ _ _ Hj) as (p & v & c & Hp & Hv & Hc & Hs).
  exists p, v, c. fold used in Hp.
  split; [exact Hc | split; [exact Hp | split; [exact Hv | split; [exact Hs |]]]].
  split; [now rewrite Hs | split].
  - intros Hsorted. apply Forall_forall. intros u Hu.
    apply In_nth_error in Hu. destruct Hu as (k & Hk).
    assert (Hki : (k < i + 1)%nat).
    { assert (k < List.length used)%nat by (apply nth_error_Some; congruence).
      unfold used in H. rewrite length_firstn in H. lia. }
    unfold used in Hk. rewrite nth_error_firstn in Hk.
    destruct (Nat.ltb_spec k (i + 1)); [| lia].
    rewrite Hs. simpl.
    destruct (Nat.eq_dec k i) as [Heq | Hne].
    + rewrite Heq, Hc in Hk. injection Hk as <-. lia.
    + apply (@StronglySorted_nth _ Z.le (map timestamp candles) Hsorted k i);
        [lia | |]; rewrite nth_error_map.
      * now rewrite Hk.
      * now rewrite Hc.
  - intros candles' Hsame. unfold replay_step, item.
    rewrite Hsame, Hp. cbn [bind]. rewrite Hv. cbn [bind].
    assert (Hc' : nth_error candles' i = Some c).
    { assert (E : nth_error (firstn (i + 1) candles') i = nth_error used i)
        by now rewrite Hsame.
      unfold used in E. rewrite !nth_error_firstn in E.
      destruct (Nat.ltb_spec i (i + 1)); [| lia].
      now rewrite E. }
    rewrite Hc'. cbn [bind]. now rewrite Hs.
Qed.

(** The first record of the sixty-candle run uses the first fifty candles
    and carries the timestamp of the fiftieth. *)
Lemma replay_no_lookahead_witness :
  let candles := fixture_candles 60 in
  let rt := fixture_runtime (Some "key") candles (fun _ => Ok hold_body) in
  exists b s c,
    get_signals rt fixture_request = Success b /\
    nth_error (signals b) 0 = Some s /\
    nth_error candles 49 = Some c /\
    sig_timestamp s = timestamp c /\
    replay_step rt (firstn 50 candles) 0 49 = Ok s.
Proof.
  intros candles rt.
  assert (Hf : fetched rt fixture_request 60 1700200000 candles)
    by apply fixture_fetched.
  assert (Hlen : (1 < List.length candles)%nat) by (simpl; lia).
  destruct (@replay_completes rt candles) as (sigs & Hrun & Hn).
  { apply hold_analysis. }
  assert (Hb : get_signals rt fixture_request =
               Success (mkBody (symbol_of fixture_request) 60
                               (List.length candles) sigs)).
  { rewrite (get_signals_replay Hf) by exact Hlen. now rewrite Hrun. }
  destruct sigs as [| s sigs]; [simpl in Hn; discriminate |].
  destruct (@replay_no_lookahead rt fixture_request 60 1700200000 candles _ 0 s
              Hf Hlen Hb eq_refl)
    as (p & v & c & Hc & _ & _ & _ & Hts & _ & Hsame).
  eexists. exists s, c.
  split; [exact Hb | split; [reflexivity | split; [exact Hc | split; [exact Hts |]]]].
  apply Hsame. rewrite firstn_firstn. reflexivity.
Defined.

Lemma recommendation_fails_raise (rt : Runtime) (n : nat) (p : Prompt) :
  recommendation_fails rt n p ->
  exists e, get_deepseek_analysis rt n p = Raise e.
Proof.
  unfold get_deepseek_analysis.
  intros [Hkey | [(e & He) | (content & e & Hc & He)]].
  - rewrite Hkey. simpl. eexists. reflexivity.
  - destruct (truthy (deepseek_api_key rt)); simpl.
    + rewrite He. simpl. eexists. reflexivity.
    + eexists. reflexivity.
  - destruct (truthy (deepseek_api_key rt)); simpl.
    + rewrite Hc. simpl. rewrite He. simpl. eexists. reflexivity.
    + eexists. reflexivity.
Qed.

(** C8.  In replay mode, when at some step the recommendation is not
    obtained (no credential, a failing collaborator or an unparsable
    response), the whole request is answered by a server error, which
    carries no record: those of the earlier steps are dropped.  No answer
    is partial: a success always carries the records of all the steps. *)
Theorem failure_aborts_request (rt : Runtime) (req : Request)
    (interval target : Z) (candles : list Candle) :
  fetched rt req interval target candles ->
  (1 < List.length candles)%nat ->
  (forall j p,
     (49 + j < List.length candles)%nat ->
     generate_analysis_prompt (firstn (49 + j + 1) candles) = Ok p ->
     recommendation_fails rt j p ->
     exists e, get_signals rt req = ServerError e) /\
  (forall b,
     get_signals rt req = Success b ->
     List.length (signals b) = (List.length candles - 49)%nat).
Proof.
  intros Hf Hlen. split.
  - intros j p Hj Hp Hfail.
    rewrite (get_signals_replay Hf) by exact Hlen.
    rewrite replay_from_49.
    destruct (replay rt candles (seq 49 (List.length candles - 49)) [])
      as [sigs | e] eqn:E; [| now exists e].
    exfalso.
    apply replay_seq_ok in E; [| lia].
    destruct E as (new & _ & Hn & Hstep).
    destruct (nth_error new j) as [s |] eqn:Es.
    + apply Hstep, replay_step_ok in Es.
      change (List.length (@nil SignalRecord) + j)%nat with j in Es.
      destruct Es as (p' & v & _ & Hp' & Hv & _).
      rewrite Hp in Hp'. injection Hp' as <-.
      destruct (recommendation_fails_raise Hfail) as (e & He). congruence.
    + apply nth_error_None in Es. lia.
  - intros b Hb.
    apply (success_is_replay Hf Hlen) in Hb.
    rewrite <- replay_from_49 in Hb.
    exact (proj1 (replay_timestamps _ _ Hb)).
Qed.

(** Sixty candles, and a collaborator that fails at its sixth request: the
    five records already built are not returned. *)
Lemma failure_aborts_request_witness :
  let answer := fun n : nat => if (n =? 5)%nat then Raise RequestException
                               else Ok hold_body in
  let rt := fixture_runtime (Some "key") (fixture_candles 60) answer in
  exists e, get_signals rt fixture_request = ServerError e.
Proof.
  intros answer rt.
  destruct (@generate_analysis_prompt_total (firstn (49 + 5 + 1) (fixture_candles 60)))
    as (p & Hp); [discriminate |].
  destruct (@failure_aborts_request rt fixture_request 60 1700200000
              (fixture_candles 60)) as (Habort & _).
  - apply fixture_fetched.
  - simpl. lia.
  - apply (Habort 5%nat p).
    + simpl. lia.
    + exact Hp.
    + right. left. exists RequestException. reflexivity.
Defined.

(* ------------------------------------------------------------------ *)
(** ** RecommendationParser: strings *)

Section StringFacts.
Local Open Scope string_scope.


Lemma append_assoc (a b c : string) : (a ++ b) ++ c = a ++ (b ++ c).
Proof. induction a as [| x a IH]; simpl; [reflexivity | now rewrite IH]. Qed.

Lemma strip_prefix_same (sep rest : string) :
  strip_prefix sep (sep ++ rest) = Some rest.
Proof.
  induction sep as [| a sep IH]; simpl; [reflexivity |].
  now rewrite Ascii.eqb_refl.
Qed.

Lemma strip_prefix_app_none (p q s : string) :
  strip_prefix p s = None -> strip_prefix (p ++ q) s = None.
Proof.
  revert s. induction p as [| a p IH]; intros s H; simpl in *; [discriminate |].
  destruct s as [| b s]; [reflexivity |].
  destruct (Ascii.eqb a b); [now apply IH | reflexivity].
Qed.

Lemma partition_eq (sep s : string) :
  partition sep s =
    match strip_prefix sep s with
    | Some rest => Some (EmptyString, rest)
    | None =>
        match s with
        | EmptyString => None
        | String c s' =>
            match partition sep s' with
            | Some (b, a) => Some (String c b, a)
            | None => None
            end
        end
    end.
Proof. destruct s; reflexivity. Qed.

(** A longer separator occurs only where a prefix of it occurs. *)
Lemma partition_app_none (p q s : string) :
  partition p s = None -> partition (p ++ q) s = None.
Proof.
  induction s as [| c s IH]; intros H; rewrite partition_eq in H |- *.
  - destruct (strip_prefix p EmptyString) eqn:E; [discriminate |].
    now rewrite (strip_prefix_app_none _ q _ E).
  - destruct (strip_prefix p (String c s)) eqn:E; [discriminate |].
    rewrite (strip_prefix_app_none _ q _ E).
    destruct (partition p s) as [[b a] |]; [discriminate |].
    now rewrite IH.
Qed.

Lemma contains_app_false (p q s : string) :
  contains p s = false -> contains (p ++ q) s = false.
Proof.
  unfold contains. intros H.
  destruct (partition p s) eqn:E; [discriminate |].
  now rewrite (partition_app_none _ q _ E).
Qed.






End StringFacts.

Section SplitFacts.
Local Open Scope string_scope.

Lemma item_split_0 (sep s : string) :
  item (split sep s) 0 = Ok (before sep s).
Proof.
  unfold split, before. cbn [split_fuel].
  now destruct (partition sep s) as [[b a] |].
Qed.

Lemma item_split_1 (sep s b a : string) :
  s <> EmptyString ->
  partition sep s = Some (b, a) ->
  item (split sep s) 1 = Ok (before sep a).
Proof.
  intros Hs H. unfold split, before.
  destruct s as [| c s]; [contradiction |].
  cbn [String.length split_fuel]. rewrite H.
  destruct (String.length s); cbn [split_fuel];
    now destruct (partition sep a) as [[b' a'] |].
Qed.




Lemma rstrip_last (u : string) (c : ascii) :
  is_space c = false -> rstrip (u ++ String c EmptyString) = u ++ String c EmptyString.
Proof.
  intros Hc. induction u as [| a u IH]; cbn [append rstrip].
  - now rewrite Hc.
  - rewrite IH. now destruct u.
Qed.



Lemma from_first_absent (c : ascii) (pre rest : string) :
  absent c pre = true ->
  from_first c (pre ++ String c rest) = Some (String c rest).
Proof.
  induction pre as [| a pre IH]; cbn [append from_first absent].
  - now rewrite Ascii.eqb_refl.
  - intros H. apply andb_true_iff in H. destruct H as (Ha & Hp).
    apply negb_true_iff in Ha. rewrite Ha. now apply IH.
Qed.

Lemma upto_last_absent_none (c : ascii) (post : string) :
  absent c post = true -> upto_last c post = None.
Proof.
  induction post as [| a post IH]; cbn [upto_last absent]; [reflexivity |].
  intros H. apply andb_true_iff in H. destruct H as (Ha & Hp).
  apply negb_true_iff in Ha. now rewrite (IH Hp), Ha.
Qed.

Lemma upto_last_absent (c : ascii) (s post : string) :
  absent c post = true ->
  upto_last c (s ++ String c post) = Some (s ++ String c EmptyString).
Proof.
  intros Hp. induction s as [| a s IH]; cbn [append upto_last].
  - now rewrite (upto_last_absent_none c post Hp), Ascii.eqb_refl.
  - now rewrite IH.
Qed.

(** The brace search finds an object text between prose without an
    opening brace before it and without a closing brace after it. *)
Lemma re_search_braces_prose (pre J post : string) :
  object_text J -> absent "{" pre = true -> absent "}" post = true ->
  re_search_braces (in_prose pre J post) = Some J.
Proof.
  intros (mid & ->) Hpre Hpost. unfold re_search_braces, in_prose.
  change (pre ++ ("{" ++ mid ++ "}") ++ post)
    with (pre ++ String "{" ((mid ++ "}") ++ post)).
  rewrite (from_first_absent "{" pre _ Hpre).
  rewrite append_assoc.
  change (String "{" (mid ++ "}" ++ post))
    with (String "{" mid ++ String "}" post).
  now rewrite (upto_last_absent "}" (String "{" mid) post Hpost).
Qed.
End SplitFacts.

(* ------------------------------------------------------------------ *)
(** ** RecommendationParser: the text handed to [json.loads] *)

Section Extraction.
Local Open Scope string_scope.

Lemma extract_raw (content : string) :
  contains "```" content = false -> extract_json_str content = Ok content.
Proof.
  intros H. unfold extract_json_str.
  pose proof (contains_app_false "```" "json" content H) as H7.
  change ("```" ++ "json") with "```json" in H7.
  rewrite H7, H. reflexivity.
Qed.





End Extraction.

(* ------------------------------------------------------------------ *)
(** ** RecommendationParser: results *)









(* ================================================================== *)
(** * Further properties of [app.py] *)

(* ------------------------------------------------------------------ *)
(** ** The window plan *)

(** X1.  The planned candle count always lies between 1 and 50, and it is
    50 exactly when the target date is at or before the cutoff or not
    before now.  For a non-negative interval the fetch therefore starts
    between 50 and 1 intervals before the target date, and a request dated
    now plans the window of a request without date. *)
Theorem planner_bounds (now target interval : Z) :
  (1 <= candles_to_fetch now target <= 50)%Z /\
  (candles_to_fetch now target = 50%Z <->
     (target <= now - 50 * 3600 \/ now <= target)%Z) /\
  ((0 <= interval)%Z ->
     (target - 50 * interval * 60 <= since_for_date now target interval
        <= target - interval * 60)%Z) /\
  since_for_date now now interval = since_now now interval.
Proof.
  assert (Hdiv : forall d, (50 <= d / 3600 <-> 50 * 3600 <= d)%Z).
  { intros d. split; intros H.
    - pose proof (Z.mul_div_le d 3600). lia.
    - apply Z.div_le_lower_bound; lia. }
  assert (Hrange : (1 <= candles_to_fetch now target <= 50)%Z).
  { unfold candles_to_fetch.
    destruct (target >? fifty_hours_ago now)%Z; lia. }
  assert (Hnow : candles_to_fetch now now = 50%Z).
  { unfold candles_to_fetch, hours_remaining, fifty_hours_ago.
    destruct (Z.gtb_spec now (now - 50 * 3600)); [| reflexivity].
    replace (now - (now - 50 * 3600))%Z with (50 * 3600)%Z by lia.
    rewrite Z.div_mul by lia. reflexivity. }
  split; [exact Hrange | split; [| split]].
  - unfold candles_to_fetch, hours_remaining, fifty_hours_ago.
    pose proof (Hdiv (target - (now - 50 * 3600))%Z) as Ht.
    destruct (Z.gtb_spec target (now - 50 * 3600)); lia.
  - intros Hi. unfold since_for_date.
    set (n := candles_to_fetch now target) in *. nia.
  - unfold since_for_date, since_now. now rewrite Hnow.
Qed.

(* ------------------------------------------------------------------ *)
(** ** The paths of [get_signals] *)

Lemma get_signals_undated (rt : Runtime) (req : Request) (interval : Z) :
  undated rt req interval ->
  get_signals rt req = respond (signals_for rt (symbol_of req) interval None).
Proof.
  intros (Hint & Hd). unfold get_signals. rewrite Hint. cbn [bind].
  destruct Hd as [-> | ->]; reflexivity.
Qed.

(** A planned request runs the pipeline with the planned [since]. *)
Lemma get_signals_planned (rt : Runtime) (req : Request) (interval since : Z)
    (date : bool) :
  planned rt req interval since date ->
  exists target,
    get_signals rt req = respond (signals_for rt (symbol_of req) interval target) /\
    since = since_of rt target interval /\
    (date = true <-> target <> None).
Proof.
  intros [(-> & target & Hd & ->) | (-> & Hu & ->)].
  - exists (Some target). split; [now apply get_signals_dated |].
    split; [reflexivity |]. split; [discriminate | reflexivity].
  - exists None. split; [now apply get_signals_undated |].
    split; [reflexivity |]. split; [discriminate | congruence].
Qed.

Lemma signals_for_got (rt : Runtime) (symbol : string) (interval : Z)
    (target : option Z) (candles : list Candle) :
  fetch_kraken_candles rt symbol interval (since_of rt target interval) = Ok candles ->
  candles <> [] ->
  signals_for rt symbol interval target =
    (sigs <- match target with
             | Some _ =>
                 if (1 <? List.length candles)%nat
                 then replay rt candles (seq 0 (List.length candles)) []
                 else single rt candles
             | None => single rt candles
             end ;;
     Ok (Success (mkBody symbol interval (List.length candles) sigs))).
Proof.
  intros Hf Hne. unfold signals_for. rewrite Hf. cbn [bind].
  destruct candles; [contradiction | reflexivity].
Qed.

(** X2.  The request is validated in a fixed order and before any
    collaborator is asked: an interval that is not an integer gives a
    server error with [ValueError], whatever the date; with a valid
    interval, a non-empty date that does not parse gives the client error
    about the date format. *)
Theorem request_validation_order (rt : Runtime) (req : Request) :
  (forall s, arg_interval req = Some s -> py_int rt s = None ->
             get_signals rt req = ServerError ValueError) /\
  (forall interval d,
     interval_of rt req = Ok interval ->
     arg_date req = Some d -> d <> EmptyString ->
     iso_timestamp rt d = None ->
     get_signals rt req = BadRequest invalid_date).
Proof.
  split.
  - intros s Hs Hbad. unfold get_signals, interval_of. now rewrite Hs, Hbad.
  - intros interval d Hint Hd Hne Hbad. unfold get_signals.
    rewrite Hint, Hd. cbn [bind].
    destruct d as [| a d]; [contradiction |]. now rewrite Hbad.
Qed.

(** X3.  When the market-data collaborator returns no candle the answer
    is the not-found response, with or without a date, and no
    recommendation is asked for. *)
Theorem no_data_is_not_found (rt : Runtime) (req : Request)
    (interval since : Z) (date : bool) :
  planned rt req interval since date ->
  got rt req interval since [] ->
  get_signals rt req = NotFound "No candle data found".
Proof.
  intros Hp Hg.
  destruct (get_signals_planned Hp) as (target & -> & -> & _).
  unfold got in Hg. unfold signals_for. now rewrite Hg.
Qed.

(** X4.  A failure [e] of the market-data collaborator is answered by a
    server error whose message is that of [e] behind the prefix of
    [fetch_kraken_candles]; a [since] of 0 is not sent to the
    collaborator. *)
Theorem fetch_failure_is_server_error (rt : Runtime) (req : Request)
    (interval since : Z) (date : bool) (e : exn) :
  planned rt req interval since date ->
  kraken_ohlc rt (symbol_of req) interval
    (if (since =? 0)%Z then None else Some since) = Raise e ->
  get_signals rt req =
    ServerError (Exception "Failed to fetch Kraken data: " (Some e)).
Proof.
  intros Hp He.
  destruct (get_signals_planned Hp) as (target & -> & -> & _).
  unfold signals_for, fetch_kraken_candles. now rewrite He.
Qed.

Lemma world_planned_dated (key : option string) (market : result (list Candle))
    (answer : nat -> result string) :
  planned (fixture_world key market answer) fixture_request 60
          (since_for_date 1700300000 1700200000 60) true.
Proof.
  left. split; [reflexivity |]. exists 1700200000%Z.
  split; [| reflexivity]. split; [reflexivity |].
  eexists. split; [reflexivity | split; [discriminate | reflexivity]].
Qed.

Lemma world_planned_undated (key : option string) (market : result (list Candle))
    (answer : nat -> result string) :
  planned (fixture_world key market answer) undated_request 15
          (since_now 1700300000 15) false.
Proof.
  right. split; [reflexivity |]. split; [| reflexivity].
  split; [reflexivity | now left].
Qed.

Lemma request_validation_order_witness :
  let rt := fixture_world None (Raise RequestException) (fun _ => Raise RequestException) in
  get_signals rt misinterval_request = ServerError ValueError /\
  get_signals rt misdated_request = BadRequest invalid_date.
Proof.
  intros rt. split.
  - apply (proj1 (request_validation_order rt misinterval_request) "hourly"%string);
      reflexivity.
  - apply (proj2 (request_validation_order rt misdated_request) 60%Z "yesterday"%string);
      [reflexivity | reflexivity | discriminate | reflexivity].
Defined.

Lemma no_data_is_not_found_witness :
  get_signals (fixture_world (Some "key") (Ok []) (fun _ => Ok hold_body))
              undated_request
  = NotFound "No candle data found".
Proof.
  apply (no_data_is_not_found
           (world_planned_undated (Some "key") (Ok []) (fun _ => Ok hold_body))).
  reflexivity.
Defined.

Lemma fetch_failure_is_server_error_witness :
  get_signals (fixture_world (Some "key") (Raise RequestException)
                             (fun _ => Ok hold_body))
              fixture_request
  = ServerError (Exception "Failed to fetch Kraken data: " (Some RequestException)).
Proof.
  apply (fetch_failure_is_server_error
           (world_planned_dated (Some "key") (Raise RequestException)
                                (fun _ => Ok hold_body))).
  reflexivity.
Defined.



Lemma get_signals_single (rt : Runtime) (req : Request) (interval since : Z)
    (date : bool) (candles : list Candle) :
  planned rt req interval since date ->
  got rt req interval since candles ->
  single_mode date candles ->
  get_signals rt req =
    match single rt candles with
    | Ok sigs => Success (mkBody (symbol_of req) interval (List.length candles) sigs)
    | Raise e => ServerError e
    end.
Proof.
  intros Hp Hg (Hne & Hmode).
  destruct (get_signals_planned Hp) as (target & -> & -> & Hdate).
  rewrite (@signals_for_got rt (symbol_of req) interval target candles Hg Hne).
  assert (E : match target with
              | Some _ =>
                  if (1 <? List.length candles)%nat
                  then replay rt candles (seq 0 (List.length candles)) []
                  else single rt candles
              | None => single rt candles
              end = single rt candles).
  { destruct target as [t |]; [| reflexivity].
    destruct Hmode as [-> | ->]; [| reflexivity].
    destruct Hdate as (_ & Hd). now specialize (Hd ltac:(discriminate)). }
  rewrite E. now destruct (single rt candles).
Qed.



(** The first step of a replay over at least 50 candles. *)
Lemma replay_first_step (rt : Runtime) (candles : list Candle) :
  (50 <= List.length candles)%nat ->
  replay rt candles (seq 0 (List.length candles)) [] =
    (s <- replay_step rt candles 0 49 ;;
     replay rt candles (seq 50 (List.length candles - 50)) [s]).
Proof.
  intros Hlen. rewrite replay_from_49.
  replace (List.length candles - 49)%nat with (S (List.length candles - 50)) by lia.
  cbn [seq]. now rewrite replay_cons.
Qed.

Lemma no_key_raises (rt : Runtime) (n : nat) (p : Prompt) :
  truthy (deepseek_api_key rt) = false ->
  get_deepseek_analysis rt n p =
    Raise (Exception "DeepSeek API key not configured" None).
Proof. intros H. unfold get_deepseek_analysis. now rewrite H. Qed.

(** X6.  Without a credential (unset or empty), every request that needs a
    recommendation (the single mode, and a replay over at least 50
    candles) is answered by a server error with the message of the missing
    key, which is not put behind the prefix of the collaborator's errors;
    the collaborator is not asked. *)
Theorem missing_key_is_server_error (rt : Runtime) (req : Request)
    (interval since : Z) (date : bool) (candles : list Candle) :
  planned rt req interval since date ->
  got rt req interval since candles ->
  truthy (deepseek_api_key rt) = false ->
  single_mode date candles \/ (date = true /\ (50 <= List.length candles)%nat) ->
  get_signals rt req =
    ServerError (Exception "DeepSeek API key not configured" None).
Proof.
  intros Hp Hg Hkey [Hm | (-> & Hlen)].
  - rewrite (get_signals_single Hp Hg Hm).
    destruct (@generate_analysis_prompt_total candles (proj1 Hm)) as (p & Hprompt).
    unfold single. rewrite Hprompt. cbn [bind].
    now rewrite (@no_key_raises rt 0 p Hkey).
  - destruct Hp as [(_ & target & Hd & ->) | (Hf & _)]; [| discriminate].
    rewrite (@get_signals_replay rt req interval target candles (conj Hd Hg))
      by lia.
    rewrite (@replay_first_step rt candles Hlen). unfold replay_step.
    destruct (@generate_analysis_prompt_total (firstn (49 + 1) candles))
      as (p & ->).
    { apply firstn_nonempty. intros ->. simpl in Hlen. lia. }
    cbn [bind]. now rewrite (@no_key_raises rt 0 p Hkey).
Qed.

Lemma missing_key_is_server_error_witness :
  get_signals (fixture_world (Some EmptyString) (Ok (fixture_candles 60))
                             (fun _ => Ok hold_body))
              fixture_request
  = ServerError (Exception "DeepSeek API key not configured" None).
Proof.
  apply (@missing_key_is_server_error _ fixture_request 60
           (since_for_date 1700300000 1700200000 60) true (fixture_candles 60)).
  - apply world_planned_dated.
  - reflexivity.
  - reflexivity.
  - right. split; [reflexivity | simpl; lia].
Defined.

Lemma Forall2_of_nth (A B : Type) (R : A -> B -> Prop) (l : list A) (l' : list B) :
  List.length l = List.length l' ->
  (forall j a, nth_error l j = Some a ->
               exists b, nth_error l' j = Some b /\ R a b) ->
  Forall2 R l l'.
Proof.
  revert l'. induction l as [| a l IH]; intros l' Hlen H.
  - destruct l'; [constructor | discriminate].
  - destruct l' as [| b l']; [discriminate |].
    constructor.
    + destruct (H 0%nat a eq_refl) as (b' & Hb & Hr).
      injection Hb as <-. exact Hr.
    + apply IH; [simpl in Hlen; lia |].
      intros j x Hj. exact (H (S j) x Hj).
Qed.

Lemma skipn_at_last (A : Type) (l : list A) (n : nat) (c : A) :
  nth_error l n = Some c -> S n = List.length l -> skipn n l = [c].
Proof.
  revert n. induction l as [| a l IH]; intros n Hn Hlen; [destruct n; discriminate |].
  destruct n as [| n]; simpl in *.
  - injection Hn as <-. destruct l; [reflexivity | discriminate].
  - apply IH; [exact Hn | lia].
Qed.

(** The records of a completed loop, against the candles from index 49. *)
Lemma replay_records (rt : Runtime) (candles : list Candle)
    (sigs : list SignalRecord) :
  replay rt candles (seq 0 (List.length candles)) [] = Ok sigs ->
  Forall2 (record_of rt) sigs (skipn 49 candles).
Proof.
  intros H.
  pose proof (proj1 (replay_timestamps _ _ H)) as Hlen.
  rewrite replay_from_49 in H.
  apply replay_seq_ok in H; [| lia].
  destruct H as (new & -> & _ & Hnew). cbn [app] in *.
  apply Forall2_of_nth.
  - rewrite length_skipn. exact Hlen.
  - intros j s Hj. apply Hnew, replay_step_ok in Hj.
    destruct Hj as (p & v & c & _ & _ & Hc & ->).
    exists c. rewrite nth_error_skipn. split; [exact Hc |].
    repeat split.
Qed.

Lemma single_records (rt : Runtime) (candles : list Candle)
    (sigs : list SignalRecord) :
  single rt candles = Ok sigs ->
  Forall2 (record_of rt) sigs (skipn (List.length candles - 1) candles).
Proof.
  unfold single, item. intros H.
  destruct (generate_analysis_prompt candles) as [p |] eqn:Ep; [| discriminate].
  cbn [bind] in H.
  destruct (get_deepseek_analysis rt 0 p) as [v |]; [| discriminate].
  cbn [bind] in H.
  destruct (nth_error candles (List.length candles - 1)) as [c |] eqn:Ec;
    [| discriminate].
  cbn [bind] in H. injection H as <-.
  assert (Hlen : S (List.length candles - 1) = List.length candles).
  { assert (List.length candles - 1 < List.length candles)%nat
      by (apply nth_error_Some; congruence).
    lia. }
  rewrite (@skipn_at_last _ candles _ c Ec Hlen).
  constructor; [repeat split | constructor].
Qed.

(** What stands behind a success. *)
Lemma signals_for_success (rt : Runtime) (symbol : string) (interval : Z)
    (target : option Z) (b : Body) :
  respond (signals_for rt symbol interval target) = Success b ->
  exists candles,
    fetch_kraken_candles rt symbol interval (since_of rt target interval) = Ok candles /\
    candles <> [] /\
    body_symbol b = symbol /\ body_interval b = interval /\
    total_candles b = List.length candles /\
    ((target <> None /\ (1 < List.length candles)%nat /\
      replay rt candles (seq 0 (List.length candles)) [] = Ok (signals b)) \/
     ((target = None \/ List.length candles = 1%nat) /\
      single rt candles = Ok (signals b))).
Proof.
  intros H.
  destruct (fetch_kraken_candles rt symbol interval (since_of rt target interval))
    as [candles | e] eqn:Ef.
  2:{ unfold signals_for in H. rewrite Ef in H. discriminate. }
  destruct candles as [| c cs].
  { unfold signals_for in H. rewrite Ef in H. discriminate. }
  exists (c :: cs). split; [reflexivity |]. split; [discriminate |].
  rewrite (@signals_for_got rt symbol interval target (c :: cs) Ef) in H
    by discriminate.
  destruct target as [t |].
  - destruct (Nat.ltb_spec 1 (List.length (c :: cs))) as [Hlt | Hge].
    + destruct (replay rt (c :: cs) (seq 0 (List.length (c :: cs))) [])
        as [sigs |]; [| discriminate].
      cbn [bind respond] in H. injection H as <-.
      repeat split. left. repeat split; [discriminate | exact Hlt].
    + destruct (single rt (c :: cs)) as [sigs |]; [| discriminate].
      cbn [bind respond] in H. injection H as <-.
      repeat split. right. split; [right; simpl in *; lia | reflexivity].
  - destruct (single rt (c :: cs)) as [sigs |]; [| discriminate].
    cbn [bind respond] in H. injection H as <-.
    repeat split. right. split; [now left | reflexivity].
Qed.

(** Every answer of [get_signals] comes from one run of the pipeline, or is
    one of the two early answers. *)
Lemma get_signals_runs (rt : Runtime) (req : Request) :
  (exists interval target,
     get_signals rt req = respond (signals_for rt (symbol_of req) interval target)) \/
  get_signals rt req = ServerError ValueError \/
  get_signals rt req = BadRequest invalid_date.
Proof.
  unfold get_signals, interval_of.
  destruct (arg_interval req) as [s |].
  - destruct (py_int rt s) as [z |]; [| now right; left]. cbn [bind].
    destruct (arg_date req) as [[| a d] |].
    + left. now exists z, None.
    + destruct (iso_timestamp rt (String a d)) as [t |].
      * left. now exists z, (Some t).
      * now right; right.
    + left. now exists z, None.
  - cbn [bind].
    destruct (arg_date req) as [[| a d] |].
    + left. now exists DEFAULT_INTERVAL, None.
    + destruct (iso_timestamp rt (String a d)) as [t |].
      * left. now exists DEFAULT_INTERVAL, (Some t).
      * now right; right.
    + left. now exists DEFAULT_INTERVAL, None.
Qed.

(** X7.  Every success answer describes candles the market-data
    collaborator returned: it names the requested symbol, counts at least
    one candle, and its records are, in order, those of the last candles of
    the sequence up to the latest one: the candles from index 49 on in a
    replay, the last candle alone otherwise.  Each record carries the
    timestamp and the close of its candle. *)
Theorem success_body_invariants (rt : Runtime) (req : Request) (b : Body) :
  get_signals rt req = Success b ->
  body_symbol b = symbol_of req /\
  (1 <= total_candles b)%nat /\
  (List.length (signals b) <= total_candles b)%nat /\
  exists since candles k,
    kraken_ohlc rt (symbol_of req) (body_interval b) since = Ok candles /\
    total_candles b = List.length candles /\
    (k = 49%nat \/ k = (List.length candles - 1)%nat) /\
    Forall2 (record_of rt) (signals b) (skipn k candles).
Proof.
  intros H.
  destruct (get_signals_runs rt req) as [(interval & target & E) | [E | E]];
    rewrite E in H; [| discriminate | discriminate].
  apply signals_for_success in H.
  destruct H as (candles & Hf & Hne & Hsym & Hint & Htot & Hmode).
  assert (Hpos : (1 <= List.length candles)%nat).
  { destruct candles; [contradiction | simpl; lia]. }
  assert (Hrec : exists k, (k = 49%nat \/ k = (List.length candles - 1)%nat) /\
                           Forall2 (record_of rt) (signals b) (skipn k candles)).
  { destruct Hmode as [(_ & _ & Hr) | (_ & Hs)].
    - exists 49%nat. split; [now left | now apply replay_records].
    - exists (List.length candles - 1)%nat.
      split; [now right | now apply single_records]. }
  destruct Hrec as (k & Hk & Hall).
  split; [exact Hsym | split; [lia | split]].
  - apply Forall2_length in Hall. rewrite Hall, length_skipn. lia.
  - unfold fetch_kraken_candles in Hf.
    destruct (kraken_ohlc rt (symbol_of req) interval
                (if (since_of rt target interval =? 0)%Z then None
                 else Some (since_of rt target interval))) as [cs | e] eqn:Ek;
      [| discriminate].
    cbn [reraise] in Hf. injection Hf as ->.
    eexists. exists candles, k. rewrite Hint.
    split; [exact Ek | split; [exact Htot | split; [exact Hk | exact Hall]]].
Qed.

Lemma world_hold_analysis (market : result (list Candle)) (n : nat) (p : Prompt) :
  get_deepseek_analysis
    (fixture_world (Some "key") market (fun _ => Ok hold_body)) n p
  = Ok (JObj [("signal"%string, JStr "HOLD")]).
Proof. reflexivity. Qed.

Lemma success_body_invariants_witness :
  let candles := fixture_candles 60 in
  let rt := fixture_world (Some "key") (Ok candles) (fun _ => Ok hold_body) in
  exists b,
    get_signals rt fixture_request = Success b /\
    body_symbol b = "XBTUSD"%string /\
    (List.length (signals b) <= total_candles b)%nat.
Proof.
  intros candles rt.
  destruct (@replay_completes rt candles) as (sigs & Hrun & _).
  { intros n p. eexists. apply world_hold_analysis. }
  assert (Hb : get_signals rt fixture_request =
               Success (mkBody (symbol_of fixture_request) 60
                               (List.length candles) sigs)).
  { rewrite (@get_signals_replay rt fixture_request 60 1700200000 candles).
    - now rewrite Hrun.
    - split; [| reflexivity]. split; [reflexivity |].
      eexists. split; [reflexivity | split; [discriminate | reflexivity]].
    - simpl. lia. }
  eexists. split; [exact Hb |].
  destruct (success_body_invariants _ _ Hb) as (Hs & _ & Hl & _).
  split; [exact Hs | exact Hl].
Defined.

(* ------------------------------------------------------------------ *)
(** ** The text extracted from a response *)

Section PartitionFacts.
Local Open Scope string_scope.

Lemma strip_prefix_spec (sep s rest : string) :
  strip_prefix sep s = Some rest -> s = sep ++ rest.
Proof.
  revert s. induction sep as [| a sep IH]; intros s H; cbn [strip_prefix append] in *.
  - now injection H.
  - destruct s as [| b s]; [discriminate |].
    destruct (Ascii.eqb_spec a b) as [-> | _]; [| discriminate].
    now rewrite (IH s H).
Qed.

Lemma strip_prefix_app_some (sep x y r : string) :
  strip_prefix sep x = Some r -> strip_prefix sep (x ++ y) = Some (r ++ y).
Proof.
  intros H. rewrite (strip_prefix_spec sep x H), append_assoc.
  apply strip_prefix_same.
Qed.

(** The two parts returned by [partition] are the text around an
    occurrence of the separator. *)
Lemma partition_spec (sep s b a : string) :
  partition sep s = Some (b, a) -> s = b ++ sep ++ a.
Proof.
  revert b. induction s as [| c s IH]; intros b H; rewrite partition_eq in H.
  - destruct (strip_prefix sep EmptyString) as [rest |] eqn:E; [| discriminate].
    injection H as <- <-. cbn [append]. now apply strip_prefix_spec.
  - destruct (strip_prefix sep (String c s)) as [rest |] eqn:E.
    + injection H as <- <-. cbn [append]. now apply strip_prefix_spec.
    + destruct (partition sep s) as [[b' a'] |]; [| discriminate].
      injection H as <- <-. cbn [append]. now rewrite <- (IH b' eq_refl).
Qed.

(** The text before the first occurrence holds no occurrence. *)
Lemma partition_before_none (c : ascii) (sep' s b a : string) :
  partition (String c sep') s = Some (b, a) ->
  partition (String c sep') b = None.
Proof.
  revert b. induction s as [| x s IH]; intros b H;
    pose proof (@partition_spec (String c sep') _ b a H) as Hs;
    rewrite partition_eq in H.
  - destruct (strip_prefix (String c sep') EmptyString) eqn:E; discriminate.
  - destruct (strip_prefix (String c sep') (String x s)) as [rest |] eqn:E.
    + injection H as <- <-. reflexivity.
    + destruct (partition (String c sep') s) as [[b' a'] |] eqn:Ep; [| discriminate].
      injection H as <- <-.
      rewrite partition_eq, (IH b' eq_refl).
      destruct (strip_prefix (String c sep') (String x b')) as [r |] eqn:Eb;
        [| reflexivity].
      exfalso.
      pose proof (@strip_prefix_app_some (String c sep') (String x b')
                    (String c sep' ++ a') r Eb) as Hc.
      rewrite <- Hs in Hc. congruence.
Qed.

Lemma before_idempotent (c : ascii) (sep' s : string) :
  before (String c sep') (before (String c sep') s) = before (String c sep') s.
Proof.
  unfold before at 2 3.
  destruct (partition (String c sep') s) as [[b a] |] eqn:E.
  - unfold before. now rewrite (@partition_before_none c sep' s b a E).
  - unfold before. now rewrite E.
Qed.

Lemma partition_some_nonempty (c : ascii) (sep' s b a : string) :
  partition (String c sep') s = Some (b, a) -> s <> EmptyString.
Proof. intros H ->. discriminate. Qed.
End PartitionFacts.

Lemma extraction_closed_form_aux (content : string) :
  extract_json_str content =
    Ok (match partition "```json" content with
        | Some (_, a) => strip (before "```" (before "```json" a))
        | None =>
            match partition "```" content with
            | Some (_, a) => strip (before "```" a)
            | None => content
            end
        end).
Proof.
  unfold extract_json_str, contains.
  destruct (partition "```json" content) as [[b a] |] eqn:E7.
  - rewrite (@item_split_1 "```json" content b a
               (@partition_some_nonempty "`" "``json" content b a E7) E7).
    cbn [bind]. rewrite item_split_0. reflexivity.
  - destruct (partition "```" content) as [[b a] |] eqn:E3; [| reflexivity].
    rewrite (@item_split_1 "```" content b a
               (@partition_some_nonempty "`" "``" content b a E3) E3).
    cbn [bind]. rewrite item_split_0. cbn [bind].
    now rewrite before_idempotent.
Qed.

(** X8.  Taking the text to decode never fails: the list indexing of
    [get_deepseek_analysis] is always in range.  With a [json] mark in the
    response the text is what stands between the first such mark and the
    next fence mark, or the end of the response when the fence is not
    closed; otherwise, with a fence mark, what stands between the first two
    fence marks (or up to the end); in both cases without the blanks around
    it.  Without any fence mark it is the response as it is, blanks
    included. *)
Theorem extraction_closed_form (content : string) :
  extract_json_str content =
    Ok (match partition "```json" content with
        | Some (_, a) => strip (before "```" (before "```json" a))
        | None =>
            match partition "```" content with
            | Some (_, a) => strip (before "```" a)
            | None => content
            end
        end).
Proof. apply extraction_closed_form_aux. Qed.

(* ------------------------------------------------------------------ *)
(** ** The brace search of the fallback *)

Section BraceFacts.
Local Open Scope string_scope.

Lemma from_first_spec (c : ascii) (s t : string) :
  from_first c s = Some t ->
  exists pre rest, s = pre ++ t /\ t = String c rest /\ absent c pre = true.
Proof.
  induction s as [| a s IH]; cbn [from_first]; [discriminate |].
  destruct (Ascii.eqb_spec a c) as [-> | Hne]; intros H.
  - injection H as <-. now exists EmptyString, s.
  - destruct (IH H) as (pre & rest & -> & -> & Hpre).
    exists (String a pre), rest. cbn [append absent].
    rewrite Hpre. apply Ascii.eqb_neq in Hne. now rewrite Hne.
Qed.

Lemma from_first_none (c : ascii) (s : string) :
  from_first c s = None -> absent c s = true.
Proof.
  induction s as [| a s IH]; cbn [from_first absent]; [reflexivity |].
  destruct (Ascii.eqb a c); [discriminate |]. intros H. now rewrite (IH H).
Qed.

Lemma upto_last_none (c : ascii) (s : string) :
  upto_last c s = None -> absent c s = true.
Proof.
  induction s as [| a s IH]; cbn [upto_last absent]; [reflexivity |].
  destruct (upto_last c s); [discriminate |].
  destruct (Ascii.eqb a c); [discriminate |]. intros _. now rewrite IH.
Qed.

Lemma upto_last_spec (c : ascii) (s r : string) :
  upto_last c s = Some r ->
  exists body post,
    r = body ++ String c EmptyString /\ s = r ++ post /\ absent c post = true.
Proof.
  revert r. induction s as [| a s IH]; intros r; cbn [upto_last]; [discriminate |].
  destruct (upto_last c s) as [r' |] eqn:E.
  - intros H. injection H as <-.
    destruct (IH r' eq_refl) as (body & post & -> & Hs & Hpost).
    exists (String a body), post. cbn [append]. now rewrite <- Hs.
  - destruct (Ascii.eqb_spec a c) as [-> | _]; [| discriminate].
    intros H. injection H as <-.
    exists EmptyString, s. cbn [append].
    split; [reflexivity | split; [reflexivity |]]. now apply upto_last_none.
Qed.

Lemma absent_app (c : ascii) (x y : string) :
  absent c (x ++ y) = (absent c x && absent c y)%bool.
Proof.
  induction x as [| a x IH]; cbn [append absent]; [reflexivity |].
  now rewrite IH, andb_assoc.
Qed.

Lemma absent_mid (c : ascii) (x y : string) :
  absent c (x ++ String c y) = false.
Proof.
  rewrite absent_app. cbn [absent]. rewrite Ascii.eqb_refl.
  apply andb_false_r.
Qed.
End BraceFacts.

Lemma brace_search_span_aux (s m : string) :
  re_search_braces s = Some m ->
  exists pre body post,
    s = (pre ++ "{" ++ body ++ "}" ++ post)%string /\
    absent "{" pre = true /\ absent "}" post = true /\
    m = ("{" ++ body ++ "}")%string.
Proof.
  unfold re_search_braces.
  destruct (from_first "{" s) as [t |] eqn:Et; [| discriminate].
  intros Hm.
  destruct (from_first_spec _ _ Et) as (pre & rest & -> & -> & Hpre).
  destruct (upto_last_spec _ _ Hm) as (body & post & -> & Hs & Hpost).
  destruct body as [| b body].
  - cbn [append] in Hs. injection Hs as Hb _. discriminate.
  - cbn [append] in Hs. injection Hs as <- ->.
    exists pre, body, post.
    split; [| split; [exact Hpre | split; [exact Hpost | reflexivity]]].
    cbn [append]. now rewrite append_assoc.
Qed.

(** X9.  The brace search of the fallback finds a match exactly when the
    response holds a closing brace after its first opening brace, and the
    match is then the whole span from the first opening brace of the
    response to its last closing brace, whatever stands between them. *)
Theorem brace_search_span (s m : string) :
  re_search_braces s = Some m <->
  exists pre body post,
    s = (pre ++ "{" ++ body ++ "}" ++ post)%string /\
    absent "{" pre = true /\ absent "}" post = true /\
    m = ("{" ++ body ++ "}")%string.
Proof.
  split.
  - apply brace_search_span_aux.
  - intros (pre & body & post & -> & Hpre & Hpost & ->).
    assert (E : (pre ++ "{" ++ body ++ "}" ++ post)%string =
                in_prose pre ("{" ++ body ++ "}") post).
    { unfold in_prose. cbn [append]. now rewrite append_assoc. }
    rewrite E.
    apply (@re_search_braces_prose pre ("{" ++ body ++ "}") post);
      [now exists body | exact Hpre | exact Hpost].
Qed.

(** X10.  With a credential, a response whose extracted text is not
    accepted by [json.loads] and that has no opening brace, or no closing
    brace, is answered by the error of the unparsable response, behind the
    prefix of the collaborator's errors. *)
Theorem no_brace_is_unparsable (rt : Runtime) (n : nat) (p : Prompt)
    (content text : string) :
  truthy (deepseek_api_key rt) = true ->
  deepseek_chat rt n p = Ok content ->
  extract_json_str content = Ok text ->
  json_loads rt text = None ->
  absent "{" content = true \/ absent "}" content = true ->
  get_deepseek_analysis rt n p =
    Raise (Exception "DeepSeek API error: " (Some could_not_parse)).
Proof.
  intros Hkey Hchat Hext Hnone Hbrace.
  assert (Hsearch : re_search_braces content = None).
  { destruct (re_search_braces content) as [m |] eqn:E; [| reflexivity].
    exfalso. apply brace_search_span_aux in E.
    destruct E as (pre & body & post & -> & _).
    destruct Hbrace as [H | H].
    - change (pre ++ "{" ++ body ++ "}" ++ post)%string
        with (pre ++ String "{" (body ++ "}" ++ post))%string in H.
      rewrite absent_mid in H. discriminate.
    - replace (pre ++ "{" ++ body ++ "}" ++ post)%string
        with ((pre ++ "{" ++ body) ++ String "}" post)%string in H
        by (now rewrite !append_assoc).
      rewrite absent_mid in H. discriminate. }
  unfold get_deepseek_analysis. rewrite Hkey, Hchat. cbn [negb bind].
  unfold parse_content. rewrite Hext. cbn [bind]. now rewrite Hnone, Hsearch.
Qed.

Lemma no_brace_is_unparsable_witness :
  get_deepseek_analysis
    (fixture_world (Some "key") (Ok []) (fun _ => Ok "I cannot answer."%string))
    0 fixture_prompt
  = Raise (Exception "DeepSeek API error: " (Some could_not_parse)).
Proof.
  apply (@no_brace_is_unparsable _ 0 fixture_prompt
           "I cannot answer."%string "I cannot answer."%string);
    try reflexivity.
  now left.
Defined.

(** X11.  With a credential, for a response without fence mark that
    [json.loads] does not accept as a whole, the answer is decided by the
    span from the first opening brace to the last closing brace: the value
    of that span when [json.loads] accepts it, and otherwise a decode
    error behind the prefix of the collaborator's errors.  Two objects in
    one response are therefore refused, not answered by the first. *)
Theorem greedy_span_decides (rt : Runtime) (n : nat) (p : Prompt)
    (pre body post : string) :
  let content := (pre ++ "{" ++ body ++ "}" ++ post)%string in
  truthy (deepseek_api_key rt) = true ->
  deepseek_chat rt n p = Ok content ->
  contains "```" content = false ->
  absent "{" pre = true -> absent "}" post = true ->
  json_loads rt content = None ->
  get_deepseek_analysis rt n p =
    match json_loads rt ("{" ++ body ++ "}")%string with
    | Some v => Ok v
    | None => Raise (Exception "DeepSeek API error: " (Some JSONDecodeError))
    end.
Proof.
  intros content Hkey Hchat Hraw Hpre Hpost Hnone.
  assert (Hsearch : re_search_braces content = Some ("{" ++ body ++ "}")%string).
  { assert (E : content = in_prose pre ("{" ++ body ++ "}") post).
    { unfold content, in_prose. cbn [append]. now rewrite append_assoc. }
    rewrite E.
    apply (@re_search_braces_prose pre ("{" ++ body ++ "}") post);
      [now exists body | exact Hpre | exact Hpost]. }
  unfold get_deepseek_analysis. rewrite Hkey, Hchat. cbn [negb bind].
  unfold parse_content. rewrite (extract_raw _ Hraw). cbn [bind].
  rewrite Hnone, Hsearch.
  now destruct (json_loads rt ("{" ++ body ++ "}")%string).
Qed.

Lemma greedy_span_decides_witness :
  get_deepseek_analysis
    (fixture_world (Some "key") (Ok []) (fun _ => Ok two_objects))
    0 fixture_prompt
  = Raise (Exception "DeepSeek API error: " (Some JSONDecodeError)).
Proof.
  apply (@greedy_span_decides
           (fixture_world (Some "key") (Ok []) (fun _ => Ok two_objects))
           0 fixture_prompt EmptyString
           (quoted "signal" ++ ": " ++ quoted "HOLD" ++ "} or {"
            ++ quoted "signal" ++ ": " ++ quoted "MAYBE")%string
           EmptyString);
    reflexivity.
Defined.



(* ------------------------------------------------------------------ *)
(** ** The rows of the prompt *)

Lemma nth_indicator_frame (candles : list Candle) (i : nat) :
  (i < List.length candles)%nat ->
  nth i (indicator_frame candles) default_row =
    mkRow (nth i candles default_candle)
          (nth i (rolling_mean 20 (map close candles)) NaN)
          (nth i (rolling_mean 50 (map close candles)) NaN)
          (nth i (calculate_rsi (map close candles) 14) NaN)
          (nth i (rolling_mean 20 (map volume candles)) NaN).
Proof.
  intros Hi. unfold indicator_frame.
  apply nth_error_nth. now rewrite nth_error_map_seq.
Qed.

Lemma rev_cons_last (A : Type) (l before : list A) (r d : A) :
  rev l = r :: before ->
  nth (List.length l - 1) l d = r /\
  (forall q rest, before = q :: rest -> nth (List.length l - 2) l d = q).
Proof.
  intros H.
  assert (E : l = rev before ++ [r]).
  { rewrite <- (rev_involutive l), H. reflexivity. }
  subst l. rewrite length_app, length_rev. cbn [List.length].
  split.
  - rewrite app_nth2; rewrite length_rev; [| lia].
    replace (List.length before + 1 - 1 - List.length before)%nat with 0%nat by lia.
    reflexivity.
  - intros q rest ->. cbn [rev List.length].
    rewrite <- app_assoc. rewrite app_nth2; rewrite length_rev; [| lia].
    replace (S (List.length rest) + 1 - 2 - List.length rest)%nat with 0%nat by lia.
    reflexivity.
Qed.

(** The parts of a prompt, by index in the frame. *)
Lemma prompt_parts (candles : list Candle) (p : Prompt) :
  generate_analysis_prompt candles = Ok p ->
  let df := indicator_frame candles in
  let n := List.length candles in
  (1 <= n)%nat /\
  latest p = nth (n - 1) df default_row /\
  previous_5 p = head 5 (tail 6 df) /\
  rel_sma_20 p = pct_change (Fin (close (candle (latest p)))) (sma_20 (latest p)) /\
  rel_sma_50 p = pct_change (Fin (close (candle (latest p)))) (sma_50 (latest p)) /\
  price_change p =
    pct_change (Fin (close (candle (latest p))))
               (Fin (close (candle (nth (n - 2) df default_row)))).
Proof.
  intros H df n. unfold generate_analysis_prompt in H. fold df in H.
  assert (Hlen : List.length df = n) by apply length_indicator_frame.
  destruct (rev df) as [| r before] eqn:E; [discriminate |].
  destruct (rev_cons_last df default_row E) as (Hlast & Hprev).
  rewrite Hlen in Hlast, Hprev.
  assert (Hn : (1 <= n)%nat).
  { rewrite <- Hlen, <- length_rev, E. simpl. lia. }
  injection H as <-. cbn [latest previous_5 rel_sma_20 rel_sma_50 price_change].
  split; [exact Hn |]. split; [now symmetry |].
  split; [reflexivity |]. split; [reflexivity |]. split; [reflexivity |].
  rewrite Hlen. destruct (Nat.ltb_spec 1 n) as [Hlt | Hge].
  - destruct before as [| q rest].
    + exfalso. assert (List.length (rev df) = 1%nat) by now rewrite E.
      rewrite length_rev in H. lia.
    + now rewrite (Hprev q rest eq_refl).
  - replace (n - 2)%nat with (n - 1)%nat by lia. now rewrite Hlast.
Qed.

(** X13.  The five rows shown as the previous candles are the five
    candles before the latest one when at least six candles are given;
    with five candles or fewer they are all the candles given, the latest
    one included. *)
Theorem previous_rows (candles : list Candle) (p : Prompt) :
  generate_analysis_prompt candles = Ok p ->
  let n := List.length candles in
  List.length (previous_5 p) = Nat.min 5 n /\
  ((6 <= n)%nat ->
     map candle (previous_5 p) ++ [candle (latest p)] = skipn (n - 6) candles) /\
  ((n <= 5)%nat -> map candle (previous_5 p) = candles).
Proof.
  intros H n.
  destruct (prompt_parts _ H) as (Hn & Hlatest & Hprev & _).
  fold n in Hn, Hlatest.
  assert (Hmap : map candle (previous_5 p) = firstn 5 (skipn (n - 6) candles)).
  { rewrite Hprev. unfold head, tail.
    rewrite <- firstn_map, <- skipn_map, frame_candles, length_indicator_frame.
    reflexivity. }
  split; [| split].
  - rewrite <- (length_map candle), Hmap, length_firstn, length_skipn.
    fold n. lia.
  - intros H6. rewrite Hmap.
    rewrite <- (firstn_skipn 5 (skipn (n - 6) candles)) at 2.
    f_equal. rewrite skipn_skipn.
    replace (5 + (n - 6))%nat with (n - 1)%nat by lia.
    rewrite Hlatest, nth_indicator_frame by (fold n; lia). cbn [candle].
    symmetry. apply skipn_at_last; [| fold n; lia].
    apply nth_error_nth'. fold n. lia.
  - intros H5. rewrite Hmap.
    replace (n - 6)%nat with 0%nat by lia. cbn [skipn].
    apply firstn_all2. fold n. exact H5.
Qed.

Lemma previous_rows_witness :
  exists p,
    generate_analysis_prompt (fixture_candles 3) = Ok p /\
    map candle (previous_5 p) = fixture_candles 3.
Proof.
  destruct (@generate_analysis_prompt_total (fixture_candles 3)) as (p & Hp);
    [discriminate |].
  exists p. split; [exact Hp |].
  destruct (previous_rows _ Hp) as (_ & _ & H). apply H. simpl. lia.
Defined.

Lemma nth_rolling_mean (w i : nat) (xs : list Q) :
  (i < List.length xs)%nat ->
  nth i (rolling_mean w xs) NaN =
    if (i + 1 <? w)%nat then NaN else Fin (window_mean w i xs).
Proof.
  intros Hi. apply nth_error_nth. now apply nth_error_rolling_mean.
Qed.

(** The latest row of a prompt: the last candle and the indicators at its
    index. *)
Lemma latest_row (candles : list Candle) (p : Prompt) :
  generate_analysis_prompt candles = Ok p ->
  let n := List.length candles in
  (1 <= n)%nat /\
  candle (latest p) = nth (n - 1) candles default_candle /\
  sma_20 (latest p) =
    (if (n <? 20)%nat then NaN
     else Fin (window_mean 20 (n - 1) (map close candles))) /\
  sma_50 (latest p) =
    (if (n <? 50)%nat then NaN
     else Fin (window_mean 50 (n - 1) (map close candles))) /\
  volume_ma (latest p) =
    (if (n <? 20)%nat then NaN
     else Fin (window_mean 20 (n - 1) (map volume candles))) /\
  rsi (latest p) = nth (n - 1) (calculate_rsi (map close candles) 14) NaN.
Proof.
  intros H n.
  destruct (prompt_parts _ H) as (Hn & Hlatest & _). fold n in Hn, Hlatest.
  rewrite Hlatest, nth_indicator_frame by (fold n; lia).
  cbn [candle sma_20 sma_50 volume_ma rsi].
  rewrite !nth_rolling_mean by (rewrite length_map; fold n; lia).
  replace (n - 1 + 1)%nat with n by lia.
  repeat split. exact Hn.
Qed.

(** X14.  For a sequence of at least two candles the latest row is the
    last candle and the price change compares its close with the close of
    the candle before it: it is [(close_b - close_a) / close_a * 100], and
    it is not a number of the price scale at all (NaN or an infinity) when
    the previous close is zero. *)
Theorem price_change_of_last_two (cs : list Candle) (a b : Candle) (p : Prompt) :
  generate_analysis_prompt (cs ++ [a; b]) = Ok p ->
  candle (latest p) = b /\
  price_change p = pct_change (Fin (close b)) (Fin (close a)) /\
  (~ close a == 0 ->
     feq (price_change p) (Fin ((close b - close a) / close a * 100))) /\
  (close a == 0 -> forall x, price_change p <> Fin x).
Proof.
  intros H.
  destruct (prompt_parts _ H) as (_ & Hlatest & _ & _ & _ & Hchange).
  assert (Hlen : List.length (cs ++ [a; b]) = (List.length cs + 2)%nat)
    by (rewrite length_app; reflexivity).
  rewrite Hlen in Hlatest, Hchange.
  assert (Hb : candle (latest p) = b).
  { rewrite Hlatest, nth_indicator_frame by lia. cbn [candle].
    rewrite app_nth2 by lia.
    replace (List.length cs + 2 - 1 - List.length cs)%nat with 1%nat by lia.
    reflexivity. }
  assert (Ha : candle (nth (List.length cs + 2 - 2)
                           (indicator_frame (cs ++ [a; b])) default_row) = a).
  { rewrite nth_indicator_frame by lia. cbn [candle].
    rewrite app_nth2 by lia.
    replace (List.length cs + 2 - 2 - List.length cs)%nat with 0%nat by lia.
    reflexivity. }
  rewrite Hb, Ha in Hchange.
  split; [exact Hb | split; [exact Hchange |]].
  rewrite Hchange. unfold pct_change, fsub, fdiv, fmul. cbn [fneg fadd].
  split.
  - intros Hnz. rewrite Qis0_false by exact Hnz. cbn [feq]. reflexivity.
  - intros Hz x. rewrite (Qis0_true Hz).
    destruct (Qis0 (close b + - close a)); [discriminate |].
    destruct (Qpos (close b + - close a)); cbn; discriminate.
Qed.

Lemma price_change_of_last_two_witness :
  exists p,
    generate_analysis_prompt (fixture_candles 2) = Ok p /\
    feq (price_change p) (Fin (inject_Z 100 / inject_Z 30000)).
Proof.
  destruct (@generate_analysis_prompt_total (fixture_candles 2)) as (p & Hp);
    [discriminate |].
  exists p. split; [exact Hp |].
  destruct (@price_change_of_last_two [] (fixture_candle 0) (fixture_candle 1) p Hp)
    as (_ & Hc & _).
  rewrite Hc. vm_compute. reflexivity.
Defined.

(** X15.  The indicators of the latest row are warmed up by count alone:
    the two moving averages of the close and the moving average of the
    volume are NaN below 20, 50 and 20 candles and the mean of the last 20,
    50 and 20 values from there on; the RSI is NaN below 14 candles.  With
    fewer candles than a window the matching relative distance in the
    prompt is NaN as well. *)
Theorem indicator_warm_up (candles : list Candle) (p : Prompt) :
  generate_analysis_prompt candles = Ok p ->
  let n := List.length candles in
  sma_20 (latest p) =
    (if (n <? 20)%nat then NaN
     else Fin (window_mean 20 (n - 1) (map close candles))) /\
  sma_50 (latest p) =
    (if (n <? 50)%nat then NaN
     else Fin (window_mean 50 (n - 1) (map close candles))) /\
  volume_ma (latest p) =
    (if (n <? 20)%nat then NaN
     else Fin (window_mean 20 (n - 1) (map volume candles))) /\
  ((n < 14)%nat -> rsi (latest p) = NaN) /\
  ((n < 20)%nat -> rel_sma_20 p = NaN) /\
  ((n < 50)%nat -> rel_sma_50 p = NaN).
Proof.
  intros H n.
  destruct (latest_row _ H) as (Hn & _ & H20 & H50 & Hv & Hrsi).
  fold n in Hn, H20, H50, Hv, Hrsi.
  destruct (prompt_parts _ H) as (_ & _ & _ & Hr20 & Hr50 & _).
  split; [exact H20 | split; [exact H50 | split; [exact Hv |]]].
  split; [| split].
  - intros Hlt. rewrite Hrsi.
    apply nth_error_nth. rewrite nth_error_calculate_rsi
      by (rewrite length_map; fold n; lia).
    destruct (Nat.ltb_spec (n - 1 + 1) 14); [reflexivity | lia].
  - intros Hlt. rewrite Hr20, H20.
    destruct (Nat.ltb_spec n 20); [reflexivity | lia].
  - intros Hlt. rewrite Hr50, H50.
    destruct (Nat.ltb_spec n 50); [reflexivity | lia].
Qed.

Lemma indicator_warm_up_witness :
  exists p,
    generate_analysis_prompt (fixture_candles 30) = Ok p /\
    sma_50 (latest p) = NaN /\ rel_sma_50 p = NaN /\
    exists m, sma_20 (latest p) = Fin m.
Proof.
  destruct (@generate_analysis_prompt_total (fixture_candles 30)) as (p & Hp);
    [discriminate |].
  exists p. split; [exact Hp |].
  destruct (indicator_warm_up _ Hp) as (H20 & H50 & _ & _ & _ & Hr50).
  split; [exact H50 | split; [apply Hr50; simpl; lia |]].
  eexists. exact H20.
Defined.

(** X16.  Every prompt sent in a replay is built from at least 50 candles,
    so that its two moving averages of the close and its moving average of
    the volume are numbers, never NaN. *)
Theorem replay_prompts_warmed_up (rt : Runtime) (req : Request)
    (interval target : Z) (candles : list Candle) (b : Body)
    (j : nat) (s : SignalRecord) :
  fetched rt req interval target candles ->
  (1 < List.length candles)%nat ->
  get_signals rt req = Success b ->
  nth_error (signals b) j = Some s ->
  exists p m20 m50 v20,
    generate_analysis_prompt (firstn (49 + j + 1) candles) = Ok p /\
    get_deepseek_analysis rt j p = Ok (sig_analysis s) /\
    sma_20 (latest p) = Fin m20 /\
    sma_50 (latest p) = Fin m50 /\
    volume_ma (latest p) = Fin v20.
Proof.
  intros Hf Hlen Hb Hj.
  apply (success_is_replay Hf Hlen) in Hb.
  apply replay_seq_ok in Hb; [| lia].
  destruct Hb as (new & Hnew & _ & Hstep). cbn [app] in Hnew.
  rewrite Hnew in Hj. apply Hstep in Hj.
  change (List.length (@nil SignalRecord) + j)%nat with j in Hj.
  destruct (replay_step_ok _ _ _ _ Hj) as (p & v & c & Hp & Hv & Hc & ->).
  assert (Hi : (49 + j < List.length candles)%nat)
    by (apply nth_error_Some; congruence).
  destruct (latest_row _ Hp) as (_ & _ & H20 & H50 & Hvol & _).
  rewrite length_firstn in H20, H50, Hvol.
  replace (Nat.min (49 + j + 1) (List.length candles)) with (50 + j)%nat
    in H20, H50, Hvol by lia.
  destruct (Nat.ltb_spec (50 + j) 20); [lia |].
  destruct (Nat.ltb_spec (50 + j) 50); [lia |].
  exists p. do 3 eexists.
  split; [exact Hp | split; [exact Hv | split; [exact H20 | split; [exact H50 | exact Hvol]]]].
Qed.

Lemma replay_prompts_warmed_up_witness :
  let candles := fixture_candles 60 in
  let rt := fixture_world (Some "key") (Ok candles) (fun _ => Ok hold_body) in
  exists p m50,
    generate_analysis_prompt (firstn 50 candles) = Ok p /\
    sma_50 (latest p) = Fin m50.
Proof.
  intros candles rt.
  assert (Hf : fetched rt fixture_request 60 1700200000 candles).
  { split; [| reflexivity]. split; [reflexivity |].
    eexists. split; [reflexivity | split; [discriminate | reflexivity]]. }
  assert (Hlen : (1 < List.length candles)%nat) by (simpl; lia).
  destruct (@replay_completes rt candles) as (sigs & Hrun & Hn).
  { intros n p. eexists. apply world_hold_analysis. }
  assert (Hb : get_signals rt fixture_request =
               Success (mkBody (symbol_of fixture_request) 60
                               (List.length candles) sigs)).
  { rewrite (get_signals_replay Hf) by exact Hlen. now rewrite Hrun. }
  destruct sigs as [| s sigs]; [simpl in Hn; discriminate |].
  destruct (@replay_prompts_warmed_up rt fixture_request 60 1700200000 candles
              _ 0 s Hf Hlen Hb eq_refl)
    as (p & m20 & m50 & v20 & Hp & _ & _ & H50 & _).
  exists p, m50. split; [exact Hp | exact H50].
Defined.

(* ------------------------------------------------------------------ *)
(** ** RSI and the net price change *)











(* ------------------------------------------------------------------ *)
(** ** The candles of a response *)

Lemma candles_of_rows_inv (cv : Conversions) (rows : list json) (cs : list Candle) :
  candles_of_rows cv rows = inr cs ->
  Forall2 (fun row c => candle_of_row cv row = inr c) rows cs.
Proof.
  revert cs. induction rows as [| row rest IH]; intros cs H; cbn in H.
  - injection H as <-. constructor.
  - destruct (candle_of_row cv row) as [e | c] eqn:Ec; [discriminate |].
    destruct (candles_of_rows cv rest) as [e | cs'] eqn:Er; [discriminate |].
    injection H as <-. constructor; [exact Ec | now apply IH].
Qed.

Lemma candles_of_rows_complete (cv : Conversions) (rows : list json) (cs : list Candle) :
  Forall2 (fun row c => candle_of_row cv row = inr c) rows cs ->
  candles_of_rows cv rows = inr cs.
Proof.
  induction 1 as [| row c rows cs Hc _ IH]; cbn; [reflexivity |].
  now rewrite Hc, IH.
Qed.

Lemma convert_inv {A} (f : json -> option A) (v : ohlc_error + json) (a : A) :
  convert f v = inr a -> exists x, v = inr x /\ f x = Some a.
Proof.
  destruct v as [e | x]; cbn; [discriminate |].
  destruct (f x) as [a' |] eqn:E; [| discriminate].
  intros H. injection H as <-. now exists x.
Qed.

Lemma candle_of_row_inv (cv : Conversions) (row : json) (c : Candle) :
  candle_of_row cv row = inr c ->
  exists x0 x1 x2 x3 x4 x6,
    subscript row 0 = inr x0 /\ subscript row 1 = inr x1 /\
    subscript row 2 = inr x2 /\ subscript row 3 = inr x3 /\
    subscript row 4 = inr x4 /\ subscript row 6 = inr x6 /\
    to_int cv x0 = Some (timestamp c) /\ to_float cv x1 = Some (open c) /\
    to_float cv x2 = Some (high c) /\ to_float cv x3 = Some (low c) /\
    to_float cv x4 = Some (close c) /\ to_float cv x6 = Some (volume c).
Proof.
  unfold candle_of_row. intros H.
  destruct (convert (to_int cv) (subscript row 0)) as [e | t] eqn:E0; [discriminate |].
  destruct (convert (to_float cv) (subscript row 1)) as [e | o] eqn:E1; [discriminate |].
  destruct (convert (to_float cv) (subscript row 2)) as [e | h] eqn:E2; [discriminate |].
  destruct (convert (to_float cv) (subscript row 3)) as [e | l] eqn:E3; [discriminate |].
  destruct (convert (to_float cv) (subscript row 4)) as [e | cl] eqn:E4; [discriminate |].
  destruct (convert (to_float cv) (subscript row 6)) as [e | v] eqn:E6; [discriminate |].
  injection H as <-. cbn [timestamp open high low close volume].
  apply convert_inv in E0, E1, E2, E3, E4, E6.
  destruct E0 as (x0 & ? & ?), E1 as (x1 & ? & ?), E2 as (x2 & ? & ?),
           E3 as (x3 & ? & ?), E4 as (x4 & ? & ?), E6 as (x6 & ? & ?).
  exists x0, x1, x2, x3, x4, x6. repeat split; assumption.
Qed.

Lemma subscript_list (items : list json) (i : nat) (x : json) :
  subscript (JArr items) i = inr x -> nth_error items i = Some x.
Proof.
  cbn. destruct (nth_error items i); [| discriminate]. now intros [= ->].
Qed.

Lemma candles_of_response_inv (cv : Conversions) (data : json) (cs : list Candle) :
  candles_of_response cv data = inr cs ->
  exists d result k v rows,
    data = JObj d /\
    dict_get "result" d = Some (JObj result) /\
    nth_error result 1 = Some (k, v) /\
    iterate v = inr rows /\
    candles_of_rows cv rows = inr cs.
Proof.
  unfold candles_of_response. intros H.
  destruct data as [| | | | | d]; try discriminate.
  assert (H' : match dict_get "result" d with
               | None => inl NoResult
               | Some (JObj result) =>
                   match nth_error result 1 with
                   | None => inl NoSecondKey
                   | Some (_, ohlc_data) =>
                       match iterate ohlc_data with
                       | inl e => inl e
                       | inr rows => candles_of_rows cv rows
                       end
                   end
               | Some _ => inl NotAnObject
               end = inr cs).
  { destruct (dict_get "error" d) as [e |]; [| exact H].
    destruct (json_truthy e); [discriminate | exact H]. }
  clear H.
  destruct (dict_get "result" d) as [r |] eqn:Er; [| discriminate].
  destruct r as [| | | | | result]; try discriminate.
  destruct (nth_error result 1) as [[k v] |] eqn:E1; [| discriminate].
  destruct (iterate v) as [e | rows] eqn:Ei; [discriminate |].
  exists d, result, k, v, rows. repeat split; try assumption; reflexivity.
Qed.

(** X18. Where the candles of a fetch come from.  When the response yields
    candles, it is a dict whose [result] is a dict with at least two
    entries, and the candles are those of the value under its SECOND key,
    whatever the keys are called: one candle per row, in the order of the
    rows, the [i]-th from the [i]-th row alone.  A row that is a list has
    at least seven entries, and its candle is read off the entries 0 to 4
    and 6 (time, open, high, low, close, volume); entry 5 and what follows
    entry 6 are not looked at. *)
Theorem fetched_candles_origin (cv : Conversions) (data : json) (cs : list Candle) :
  candles_of_response cv data = inr cs ->
  exists d result k v rows,
    data = JObj d /\
    dict_get "result" d = Some (JObj result) /\
    nth_error result 1 = Some (k, v) /\
    iterate v = inr rows /\
    List.length cs = List.length rows /\
    forall i row, nth_error rows i = Some row ->
      exists c, nth_error cs i = Some c /\
                candle_of_row cv row = inr c /\
                forall items, row = JArr items ->
                  (7 <= List.length items)%nat /\
                  entry (to_int cv) items 0 = Some (timestamp c) /\
                  entry (to_float cv) items 1 = Some (open c) /\
                  entry (to_float cv) items 2 = Some (high c) /\
                  entry (to_float cv) items 3 = Some (low c) /\
                  entry (to_float cv) items 4 = Some (close c) /\
                  entry (to_float cv) items 6 = Some (volume c).
Proof.
  intros H.
  destruct (candles_of_response_inv _ _ H) as (d & result & k & v & rows & -> & Hr & Hk & Hi & Hc).
  exists d, result, k, v, rows.
  apply candles_of_rows_inv in Hc.
  repeat split; try assumption.
  - symmetry. exact (Forall2_length Hc).
  - intros i row Hrow.
    assert (Hex : exists c, nth_error cs i = Some c /\ candle_of_row cv row = inr c).
    { clear - Hc Hrow. revert i Hrow.
      induction Hc as [| r c rs cs' Hrc _ IH]; intros [| i] Hrow; cbn in Hrow; try discriminate.
      - injection Hrow as <-. now exists c.
      - cbn. now apply IH. }
    destruct Hex as (c & Hci & Hcr). exists c.
    split; [exact Hci | split; [exact Hcr |]].
    intros items ->.
    destruct (candle_of_row_inv _ _ Hcr)
      as (x0 & x1 & x2 & x3 & x4 & x6 & S0 & S1 & S2 & S3 & S4 & S6
          & T0 & T1 & T2 & T3 & T4 & T6).
    apply subscript_list in S0, S1, S2, S3, S4, S6.
    assert (6 < List.length items)%nat by (apply nth_error_Some; congruence).
    unfold entry. rewrite S0, S1, S2, S3, S4, S6.
    repeat split; (lia || assumption).
Qed.

(** One row under the second key: one candle, with the volume of entry 6. *)
Lemma fetched_candles_origin_witness :
  let data := swapped_layout "XXBTZUSD" [fixture_row] "1700000000" in
  let cs := [mkCandle 60 (inject_Z 15) (inject_Z 60) (inject_Z 15) (inject_Z 15)
                      (inject_Z 60)] in
  candles_of_response stub_conversions data = inr cs /\
  exists d result k v rows,
    data = JObj d /\
    dict_get "result" d = Some (JObj result) /\
    nth_error result 1 = Some (k, v) /\
    iterate v = inr rows /\
    List.length cs = List.length rows.
Proof.
  intros data cs.
  assert (H : candles_of_response stub_conversions data = inr cs) by reflexivity.
  split; [exact H |].
  destruct (fetched_candles_origin _ _ H) as (d & result & k & v & rows & E1 & E2 & E3 & E4 & E5 & _).
  exists d, result, k, v, rows. repeat split; assumption.
Defined.

(** X19. The layout of the response decides the fetch.  With the rows under
    the first key of [result] and the number [last] under the second, the
    order in which the Kraken documentation shows them, the loop runs over
    the number and no candle is returned, whatever the rows; with the two
    entries exchanged the rows are converted. *)
Theorem pair_first_layout_is_rejected (cv : Conversions) (pair last : string)
        (rows : list json) :
  candles_of_response cv (kraken_layout pair rows last) = inl NotIterable /\
  candles_of_response cv (swapped_layout pair rows last) = candles_of_rows cv rows.
Proof.
  split; reflexivity.
Qed.
